(** * School management system: domain model and data-access layer

    A shallow embedding of [school_system_backend.py] (the classes
    [Person], [Student], [Instructor], [Course]) and of
    [database_manager.py] (the class [DatabaseManager] over its sqlite3
    connection), followed by the properties the specification states
    about them. *)

From Stdlib Require Import ZArith String Ascii List Bool Lia QArith Qcanon.
From Stdlib Require Import Floats.SpecFloat.
From stdpp Require Import base gmap strings list sorting.

Set Warnings "-register-all".

Local Open Scope Z_scope.
Local Open Scope string_scope.

(** ** Python objects, exceptions and results *)

(** The Python objects that reach this code as constructor arguments,
    dictionary entries and statement parameters.  A [float] is kept as its
    IEEE 754 datum. *)
Inductive value :=
| VNone
| VBool (b : bool)
| VInt (z : Z)
| VFloat (f : spec_float)
| VStr (s : string)
| VList (l : list value).

(** What a violated constraint of the store reports. *)
Inductive constraint :=
| UniqueFailed (columns : list string)
| ForeignKeyFailed.

Inductive exn :=
| ValueError (msg : string)
| TypeError
| KeyError (key : string)
| IntegrityError (c : constraint)      (* sqlite3.IntegrityError *)
| ProgrammingError                     (* sqlite3: parameter of unsupported type *)
| OverflowError.                       (* sqlite3: int beyond 64 bits *)

Inductive result (A : Type) :=
| Ok (a : A)
| Raise (e : exn).
Arguments Ok {A} a.
Arguments Raise {A} e.

#[global] Instance result_ret : MRet result := fun _ a => Ok a.
#[global] Instance result_bind : MBind result := fun _ _ k m =>
  match m with
  | Ok a => k a
  | Raise e => Raise e
  end.

(** The error kinds of the specification, as the exceptions the code raises. *)
Definition ValidationError : string -> exn := ValueError.
Definition DuplicateKeyError (column : string) : exn :=
  IntegrityError (UniqueFailed [column]).
Definition DuplicateRegistrationError : exn :=
  IntegrityError (UniqueFailed ["registrations.student_id"; "registrations.course_id"]).
Definition ReferentialIntegrityError : exn := IntegrityError ForeignKeyFailed.

(** The value a stored number denotes. *)
Inductive number :=
| NegInf
| Finite (q : Qc)
| PosInf.

Definition float_number (f : spec_float) : number :=
  match f with
  | S754_zero _ | S754_nan => Finite (Q2Qc 0)
  | S754_infinity s => if s then NegInf else PosInf
  | S754_finite s m e =>
      Finite (Q2Qc (inject_Z (if s then Z.neg m else Z.pos m) * Qpower (2 # 1) e))
  end.

Definition number_compare (x y : number) : comparison :=
  match x, y with
  | NegInf, NegInf | PosInf, PosInf => Eq
  | NegInf, _ | _, PosInf => Lt
  | _, NegInf | PosInf, _ => Gt
  | Finite p, Finite q => Qccompare p q
  end.

(** [v] as a number, for the values that are numbers ([nan] is none). *)
Definition py_number (v : value) : option number :=
  match v with
  | VBool b => Some (Finite (Q2Qc (inject_Z (Z.b2z b))))
  | VInt z => Some (Finite (Q2Qc (inject_Z z)))
  | VFloat S754_nan => None
  | VFloat f => Some (float_number f)
  | _ => None
  end.

Definition is_nan (v : value) : bool :=
  match v with
  | VFloat S754_nan => true
  | _ => false
  end.

(** [a == b].  Numbers are compared by value, across [bool], [int] and
    [float], and [nan] equals nothing; a string, [None] or a list equals
    only one of its kind.  The items of two lists are compared by identity
    first, so that two [nan] items at the same place are equal exactly when
    they are one object: the contents do not decide that case, and the
    answer is then [None]. *)
Fixpoint py_eq (a b : value) : option bool :=
  match a, b with
  | VNone, VNone => Some true
  | VStr s, VStr t => Some (String.eqb s t)
  | VList l, VList m =>
      if negb (Nat.eqb (length l) (length m)) then Some false else
      (fix items (l m : list value) : option bool :=
         match l, m with
         | x :: l', y :: m' =>
             if is_nan x && is_nan y then None
             else match py_eq x y with
                  | Some true => items l' m'
                  | other => other
                  end
         | _, _ => Some true
         end) l m
  | (VBool _ | VInt _ | VFloat _), (VBool _ | VInt _ | VFloat _) =>
      match py_number a, py_number b with
      | Some x, Some y =>
          Some (match number_compare x y with Eq => true | _ => false end)
      | _, _ => Some false
      end
  | _, _ => Some false
  end.

(** [isinstance(v, int)]: [bool] is a subclass of [int]. *)
Definition isinstance_int (v : value) : bool :=
  match v with
  | VInt _ | VBool _ => true
  | _ => false
  end.

(** The integer an instance of [int] stands for. *)
Definition int_value (v : value) : option Z :=
  match v with
  | VInt z => Some z
  | VBool b => Some (Z.b2z b)
  | _ => None
  end.

(** [v < 0]. *)
Definition lt_zero (v : value) : result bool :=
  match v with
  | VInt z => Ok (Z.ltb z 0)
  | VBool b => Ok (Z.ltb (Z.b2z b) 0)
  | VFloat (S754_finite s _ _) | VFloat (S754_infinity s) => Ok s
  | VFloat _ => Ok false
  | _ => Raise TypeError
  end.

(** [needle in hay] on two strings: substring search. *)
Fixpoint substring_in (needle hay : string) : bool :=
  String.prefix needle hay ||
  match hay with
  | EmptyString => false
  | String _ hay' => substring_in needle hay'
  end.

(** [s == v] for a string [s]: only an equal string is equal to it. *)
Definition str_eq (s : string) (v : value) : bool :=
  match v with
  | VStr t => String.eqb s t
  | _ => false
  end.

(** [s not in container] for a string literal [s]. *)
Definition str_not_in (s : string) (container : value) : result bool :=
  match container with
  | VStr hay => Ok (negb (substring_in s hay))
  | VList l => Ok (negb (existsb (str_eq s) l))
  | _ => Raise TypeError
  end.

(** ** school_system_backend.py *)

Record Person := mkPerson {
  name : value;
  age : value;
  _email : value
}.

Inductive Student := mkStudent {
  student_person :> Person;
  student_id : value;
  registered_courses : list Course
}
with Instructor := mkInstructor {
  instructor_person :> Person;
  instructor_id : value;
  assigned_courses : list Course
}
with Course := mkCourse {
  course_id : value;
  course_name : value;
  instructor : option Instructor;
  enrolled_students : list Student
}.

Definition age_message : string := "Age must be a non-negative integer.".
Definition email_message : string := "Email address is not valid.".

(** [data[key]] on a dictionary with string keys. *)
Definition getitem (data : gmap string value) (key : string) : result value :=
  match data !! key with
  | Some v => Ok v
  | None => Raise (KeyError key)
  end.

Module Person.
(** [Person.__init__]: the fields are assigned, then the age is checked,
    then the email. *)
Definition __init__ (name age email : value) : result Person :=
  bad_age ← (if negb (isinstance_int age) then Ok true else lt_zero age);
  if (bad_age : bool) then Raise (ValueError age_message) else
  bad_email ← (no_at ← str_not_in "@" email;
               if (no_at : bool) then Ok true else str_not_in "." email);
  if (bad_email : bool) then Raise (ValueError email_message) else
  Ok (mkPerson name age email).
End Person.

Module Student.
Definition __init__ (name age email student_id : value) : result Student :=
  self ← Person.__init__ name age email;
  Ok (mkStudent self student_id []).

Definition to_dict (self : Student) : gmap string value :=
  <["name" := name self]>
  (<["age" := age self]>
  (<["email" := _email self]>
  (<["student_id" := student_id self]>
  (<["registered_courses" := VList (map course_id (registered_courses self))]> ∅)))).

Definition from_dict (data : gmap string value) : result Student :=
  n ← getitem data "name";
  a ← getitem data "age";
  e ← getitem data "email";
  i ← getitem data "student_id";
  __init__ n a e i.
End Student.

Module Instructor.
Definition __init__ (name age email instructor_id : value) : result Instructor :=
  self ← Person.__init__ name age email;
  Ok (mkInstructor self instructor_id []).

Definition to_dict (self : Instructor) : gmap string value :=
  <["name" := name self]>
  (<["age" := age self]>
  (<["email" := _email self]>
  (<["instructor_id" := instructor_id self]>
  (<["assigned_courses" := VList (map course_id (assigned_courses self))]> ∅)))).

Definition from_dict (data : gmap string value) : result Instructor :=
  n ← getitem data "name";
  a ← getitem data "age";
  e ← getitem data "email";
  i ← getitem data "instructor_id";
  __init__ n a e i.
End Instructor.

Module Course.
Definition __init__ (course_id course_name : value) (instructor : option Instructor)
  : Course :=
  mkCourse course_id course_name instructor [].

Definition to_dict (self : Course) : gmap string value :=
  <["course_id" := course_id self]>
  (<["course_name" := course_name self]>
  (<["instructor_id" := match instructor self with
                        | Some i => instructor_id i
                        | None => VNone
                        end]>
  (<["enrolled_students" := VList (map student_id (enrolled_students self))]> ∅))).

(** [next((inst for inst in instructors
           if inst.instructor_id == data['instructor_id']), None)]:
    the entry is looked up anew for each instructor tried, and not at all
    when there is none.  The answer is [None] where that of [==] is. *)
Fixpoint find_instructor (data : gmap string value) (instructors : list Instructor)
  : option (result (option Instructor)) :=
  match instructors with
  | [] => Some (Ok None)
  | inst :: rest =>
      match getitem data "instructor_id" with
      | Raise e => Some (Raise e)
      | Ok key =>
          match py_eq (instructor_id inst) key with
          | None => None
          | Some true => Some (Ok (Some inst))
          | Some false => find_instructor data rest
          end
      end
  end.

Definition from_dict (data : gmap string value) (instructors : list Instructor)
  : option (result Course) :=
  match find_instructor data instructors with
  | None => None
  | Some found =>
      Some (instructor ← found;
            i ← getitem data "course_id";
            n ← getitem data "course_name";
            Ok (__init__ i n instructor))
  end.
End Course.

(** ** The sqlite3 store *)

(** Storage classes of the cells this code can write (no parameter here
    is ever a [bytes] object). *)
Inductive sqlval :=
| SNull
| SInt (z : Z)
| SReal (f : spec_float)
| SText (s : string).

(** How sqlite3 binds a Python object to a [?] of a statement. *)
Definition adapt (v : value) : result sqlval :=
  match v with
  | VNone => Ok SNull
  | VBool b => Ok (SInt (Z.b2z b))
  | VInt z =>
      if Z.leb (- 2 ^ 63) z && Z.ltb z (2 ^ 63) then Ok (SInt z) else Raise OverflowError
  | VFloat S754_nan => Ok SNull
  | VFloat f => Ok (SReal f)
  | VStr s => Ok (SText s)
  | VList _ => Raise ProgrammingError
  end.

(** The key by which the engine compares and sorts cells: NULL first, then
    numbers by value (an INTEGER and a REAL of the same value are equal),
    then text byte by byte. *)
Inductive sortkey :=
| KNull
| KNum (x : number)
| KText (s : string).

Definition sql_key (v : sqlval) : sortkey :=
  match v with
  | SNull | SReal S754_nan => KNull
  | SInt z => KNum (Finite (Q2Qc (inject_Z z)))
  | SReal f => KNum (float_number f)
  | SText s => KText s
  end.

Definition sortkey_compare (a b : sortkey) : comparison :=
  match a, b with
  | KNull, KNull => Eq
  | KNull, _ => Lt
  | _, KNull => Gt
  | KNum x, KNum y => number_compare x y
  | KNum _, KText _ => Lt
  | KText _, KNum _ => Gt
  | KText s, KText t => String.compare s t
  end.

Definition is_null (v : sqlval) : bool :=
  match sql_key v with
  | KNull => true
  | _ => false
  end.

(** The comparison [a = b] of a WHERE or ON clause and of a key
    constraint: never true of NULL. *)
Definition sql_eq (a b : sqlval) : bool :=
  negb (is_null a) && negb (is_null b) &&
  match sortkey_compare (sql_key a) (sql_key b) with
  | Eq => true
  | _ => false
  end.

Module Students.
Record row := mk { student_id : sqlval; name : sqlval; age : sqlval; email : sqlval }.
End Students.

Module Instructors.
Record row := mk { instructor_id : sqlval; name : sqlval; age : sqlval; email : sqlval }.
End Instructors.

Module Courses.
Record row := mk { course_id : sqlval; course_name : sqlval; instructor_id : sqlval }.
End Courses.

Module Registrations.
Record row := mk { student_id : sqlval; course_id : sqlval }.
End Registrations.

(** Modelled from the spec: [database_schema.sql] is not among the
    sources.  The four relations, their keys and their references are those
    of the persisted-state layout,
      students(student_id PRIMARY KEY, name, age, email)
      instructors(instructor_id PRIMARY KEY, name, age, email)
      courses(course_id PRIMARY KEY, course_name,
              instructor_id NULLABLE REFERENCES instructors)
      registrations(student_id REFERENCES students,
                    course_id REFERENCES courses,
                    UNIQUE(student_id, course_id)),
    a referenced row never being removed by cascade.  The layout gives the
    columns no type, so a cell keeps the storage class of the object bound
    to it.  Each table lists its rows in rowid order, which is the order
    of insertion.

    Whether the engine enforces the references is a setting of the
    connection, [foreign_keys]: sqlite3 leaves it off unless a statement
    switches it on, and [DatabaseManager] issues none of its own, so it is
    what the schema script makes it. *)
Record Database := mkDatabase {
  foreign_keys : bool;
  students : list Students.row;
  instructors : list Instructors.row;
  courses : list Courses.row;
  registrations : list Registrations.row
}.

(** Modelled from the spec: the store that [setup_database] leaves on a
    new file, by a [database_schema.sql] as the specification describes it:
    the four relations, empty, and foreign-key enforcement in force. *)
Definition empty_database : Database := mkDatabase true [] [] [] [].

Definition with_students (db : Database) (l : list Students.row) : Database :=
  mkDatabase (foreign_keys db) l (instructors db) (courses db) (registrations db).
Definition with_instructors (db : Database) (l : list Instructors.row) : Database :=
  mkDatabase (foreign_keys db) (students db) l (courses db) (registrations db).
Definition with_courses (db : Database) (l : list Courses.row) : Database :=
  mkDatabase (foreign_keys db) (students db) (instructors db) l (registrations db).
Definition with_registrations (db : Database) (l : list Registrations.row) : Database :=
  mkDatabase (foreign_keys db) (students db) (instructors db) (courses db) l.

(** A child key is satisfied when it is NULL or some parent key equals it. *)
Definition references_ok (child : sqlval) (parents : list sqlval) : bool :=
  is_null child || existsb (sql_eq child) parents.

(** *** The statements the manager executes

    A statement that changes rows answers with its row count and the new
    content of the store; one that violates a constraint raises and leaves
    the store as it was.  A key constraint is checked as the row is written,
    the references, when enforced, at the end of the statement. *)
Module Sql.
Definition matching {A} (column : A -> sqlval) (key : sqlval) (r : A) : bool :=
  sql_eq (column r) key.

(** INSERT INTO students (student_id, name, age, email) VALUES (?, ?, ?, ?) *)
Definition insert_students (db : Database) (r : Students.row) : result (nat * Database) :=
  if existsb (matching Students.student_id (Students.student_id r)) (students db)
  then Raise (IntegrityError (UniqueFailed ["students.student_id"]))
  else Ok (1%nat, with_students db (students db ++ [r])).

(** SELECT * FROM students *)
Definition select_students (db : Database) : list Students.row := students db.

(** SELECT * FROM students WHERE student_id = ? *)
Definition select_students_where (db : Database) (key : sqlval) : list Students.row :=
  filter (fun r => matching Students.student_id key r = true) (students db).

(** UPDATE students SET name = ?, age = ?, email = ? WHERE student_id = ? *)
Definition update_students (db : Database) (n a e key : sqlval) : result (nat * Database) :=
  Ok (length (select_students_where db key),
      with_students db
        (map (fun r => if matching Students.student_id key r
                       then Students.mk (Students.student_id r) n a e else r)
             (students db))).

(** DELETE FROM students WHERE student_id = ? *)
Definition delete_from_students (db : Database) (key : sqlval) : result (nat * Database) :=
  let deleted := select_students_where db key in
  if foreign_keys db &&
     existsb (fun d => existsb (matching Registrations.student_id (Students.student_id d))
                         (registrations db)) deleted
  then Raise (IntegrityError ForeignKeyFailed)
  else Ok (length deleted,
           with_students db
             (filter (fun r => matching Students.student_id key r = false) (students db))).

(** INSERT INTO instructors (instructor_id, name, age, email) VALUES (?, ?, ?, ?) *)
Definition insert_instructors (db : Database) (r : Instructors.row)
  : result (nat * Database) :=
  if existsb (matching Instructors.instructor_id (Instructors.instructor_id r))
       (instructors db)
  then Raise (IntegrityError (UniqueFailed ["instructors.instructor_id"]))
  else Ok (1%nat, with_instructors db (instructors db ++ [r])).

(** SELECT * FROM instructors *)
Definition select_instructors (db : Database) : list Instructors.row := instructors db.

(** SELECT * FROM instructors WHERE instructor_id = ? *)
Definition select_instructors_where (db : Database) (key : sqlval)
  : list Instructors.row :=
  filter (fun r => matching Instructors.instructor_id key r = true) (instructors db).

(** UPDATE instructors SET name = ?, age = ?, email = ? WHERE instructor_id = ? *)
Definition update_instructors (db : Database) (n a e key : sqlval)
  : result (nat * Database) :=
  Ok (length (select_instructors_where db key),
      with_instructors db
        (map (fun r => if matching Instructors.instructor_id key r
                       then Instructors.mk (Instructors.instructor_id r) n a e else r)
             (instructors db))).

(** DELETE FROM instructors WHERE instructor_id = ? *)
Definition delete_from_instructors (db : Database) (key : sqlval)
  : result (nat * Database) :=
  let deleted := select_instructors_where db key in
  if foreign_keys db &&
     existsb (fun d => existsb (matching Courses.instructor_id (Instructors.instructor_id d))
                         (courses db)) deleted
  then Raise (IntegrityError ForeignKeyFailed)
  else Ok (length deleted,
           with_instructors db
             (filter (fun r => matching Instructors.instructor_id key r = false)
                (instructors db))).

(** INSERT INTO courses (course_id, course_name, instructor_id) VALUES (?, ?, ?) *)
Definition insert_courses (db : Database) (r : Courses.row) : result (nat * Database) :=
  if existsb (matching Courses.course_id (Courses.course_id r)) (courses db)
  then Raise (IntegrityError (UniqueFailed ["courses.course_id"]))
  else if negb (foreign_keys db)
          || references_ok (Courses.instructor_id r)
               (map Instructors.instructor_id (instructors db))
  then Ok (1%nat, with_courses db (courses db ++ [r]))
  else Raise (IntegrityError ForeignKeyFailed).

(** SELECT * FROM courses *)
Definition select_courses (db : Database) : list Courses.row := courses db.

(** SELECT * FROM courses WHERE course_id = ? *)
Definition select_courses_where (db : Database) (key : sqlval) : list Courses.row :=
  filter (fun r => matching Courses.course_id key r = true) (courses db).

(** UPDATE courses SET course_name = ?, instructor_id = ? WHERE course_id = ? *)
Definition update_courses (db : Database) (n i key : sqlval) : result (nat * Database) :=
  let updated := select_courses_where db key in
  if foreign_keys db
     && negb (references_ok i (map Instructors.instructor_id (instructors db)))
     && negb (Nat.eqb (length updated) 0)
  then Raise (IntegrityError ForeignKeyFailed)
  else Ok (length updated,
           with_courses db
             (map (fun r => if matching Courses.course_id key r
                            then Courses.mk (Courses.course_id r) n i else r)
                  (courses db))).

(** DELETE FROM courses WHERE course_id = ? *)
Definition delete_from_courses (db : Database) (key : sqlval) : result (nat * Database) :=
  let deleted := select_courses_where db key in
  if foreign_keys db &&
     existsb (fun d => existsb (matching Registrations.course_id (Courses.course_id d))
                         (registrations db)) deleted
  then Raise (IntegrityError ForeignKeyFailed)
  else Ok (length deleted,
           with_courses db
             (filter (fun r => matching Courses.course_id key r = false) (courses db))).

(** INSERT INTO registrations (student_id, course_id) VALUES (?, ?) *)
Definition same_pair (r r' : Registrations.row) : bool :=
  sql_eq (Registrations.student_id r') (Registrations.student_id r)
  && sql_eq (Registrations.course_id r') (Registrations.course_id r).

Definition insert_registrations (db : Database) (r : Registrations.row)
  : result (nat * Database) :=
  if existsb (same_pair r) (registrations db)
  then Raise (IntegrityError
                (UniqueFailed ["registrations.student_id"; "registrations.course_id"]))
  else if negb (foreign_keys db)
          || references_ok (Registrations.student_id r)
               (map Students.student_id (students db))
             && references_ok (Registrations.course_id r)
                  (map Courses.course_id (courses db))
  then Ok (1%nat, with_registrations db (registrations db ++ [r]))
  else Raise (IntegrityError ForeignKeyFailed).

(** One row of the display query:
    s.student_id, s.name, c.course_id, c.course_name. *)
Record display_row := mk_display {
  d_student_id : sqlval;
  d_name : sqlval;
  d_course_id : sqlval;
  d_course_name : sqlval
}.

(** FROM registrations r
    JOIN students s ON r.student_id = s.student_id
    JOIN courses c ON r.course_id = c.course_id *)
Definition joined (db : Database) : list display_row :=
  r ← registrations db;
  s ← filter (fun s => sql_eq (Registrations.student_id r) (Students.student_id s) = true)
        (students db);
  c ← filter (fun c => sql_eq (Registrations.course_id r) (Courses.course_id c) = true)
        (courses db);
  [mk_display (Students.student_id s) (Students.name s)
     (Courses.course_id c) (Courses.course_name c)].

(** ORDER BY s.name, c.course_name *)
Definition display_key (d : display_row) : sortkey * sortkey :=
  (sql_key (d_name d), sql_key (d_course_name d)).

Definition key_leb (a b : sortkey * sortkey) : bool :=
  match sortkey_compare (fst a) (fst b) with
  | Lt => true
  | Gt => false
  | Eq => match sortkey_compare (snd a) (snd b) with
          | Gt => false
          | _ => true
          end
  end.

Definition key_le (a b : sortkey * sortkey) : Prop := key_leb a b = true.

Definition display_le (d d' : display_row) : Prop :=
  key_le (display_key d) (display_key d').

#[global] Instance key_le_dec : RelDecision key_le.
Proof. intros a b. unfold key_le. apply _. Defined.

#[global] Instance display_le_dec : RelDecision display_le.
Proof. intros a b. unfold display_le. apply _. Defined.

(** Rows that tie on both columns come out in the order the sorter leaves
    them; no property below depends on it. *)
Definition select_display (db : Database) : list display_row :=
  merge_sort display_le (joined db).
End Sql.

(** ** database_manager.py *)

Module DatabaseManager.

(** [self.cursor.execute(...)] followed by [self.conn.commit()]: the rows
    changed by a statement that succeeds are durable; a statement that
    raises has changed nothing. *)
Definition execute_commit (conn : Database) (statement : result (nat * Database))
  : result unit * Database :=
  match statement with
  | Ok (_, conn') => (Ok (), conn')
  | Raise e => (Raise e, conn)
  end.

(** [try: ... except sqlite3.IntegrityError as e: raise e] *)
Definition reraise_integrity_error {A} (body : result A * Database) : result A * Database :=
  match body with
  | (Raise (IntegrityError c), conn) => (Raise (IntegrityError c), conn)
  | other => other
  end.

(** [self.cursor.fetchone()] *)
Definition fetchone {A} (rows : list A) : option A := head rows.

(** --- Student Methods --- *)

Definition add_student (conn : Database) (student : Student) : result unit * Database :=
  reraise_integrity_error
    (execute_commit conn
       (k ← adapt (student_id student);
        n ← adapt (name student);
        a ← adapt (age student);
        e ← adapt (_email student);
        Sql.insert_students conn (Students.mk k n a e))).

Definition get_all_students (conn : Database) : list Students.row :=
  Sql.select_students conn.

Definition get_student_by_id (conn : Database) (student_id : value)
  : result (option Students.row) :=
  k ← adapt student_id;
  Ok (fetchone (Sql.select_students_where conn k)).

Definition update_student (conn : Database) (student : Student) : result unit * Database :=
  execute_commit conn
    (n ← adapt (name student);
     a ← adapt (age student);
     e ← adapt (_email student);
     k ← adapt (student_id student);
     Sql.update_students conn n a e k).

Definition delete_student (conn : Database) (student_id : value) : result unit * Database :=
  execute_commit conn
    (k ← adapt student_id;
     Sql.delete_from_students conn k).

(** --- Instructor Methods --- *)

Definition add_instructor (conn : Database) (instructor : Instructor)
  : result unit * Database :=
  reraise_integrity_error
    (execute_commit conn
       (k ← adapt (instructor_id instructor);
        n ← adapt (name instructor);
        a ← adapt (age instructor);
        e ← adapt (_email instructor);
        Sql.insert_instructors conn (Instructors.mk k n a e))).

Definition get_all_instructors (conn : Database) : list Instructors.row :=
  Sql.select_instructors conn.

Definition get_instructor_by_id (conn : Database) (instructor_id : value)
  : result (option Instructors.row) :=
  k ← adapt instructor_id;
  Ok (fetchone (Sql.select_instructors_where conn k)).

Definition update_instructor (conn : Database) (instructor : Instructor)
  : result unit * Database :=
  execute_commit conn
    (n ← adapt (name instructor);
     a ← adapt (age instructor);
     e ← adapt (_email instructor);
     k ← adapt (instructor_id instructor);
     Sql.update_instructors conn n a e k).

Definition delete_instructor (conn : Database) (instructor_id : value)
  : result unit * Database :=
  execute_commit conn
    (k ← adapt instructor_id;
     Sql.delete_from_instructors conn k).

(** --- Course Methods --- *)

(** [course.instructor.instructor_id if course.instructor else None] *)
Definition instructor_id_of (course : Course) : value :=
  match instructor course with
  | Some i => instructor_id i
  | None => VNone
  end.

Definition add_course (conn : Database) (course : Course) : result unit * Database :=
  reraise_integrity_error
    (let instructor_id := instructor_id_of course in
     execute_commit conn
       (k ← adapt (course_id course);
        n ← adapt (course_name course);
        i ← adapt instructor_id;
        Sql.insert_courses conn (Courses.mk k n i))).

Definition get_all_courses (conn : Database) : list Courses.row :=
  Sql.select_courses conn.

Definition get_course_by_id (conn : Database) (course_id : value)
  : result (option Courses.row) :=
  k ← adapt course_id;
  Ok (fetchone (Sql.select_courses_where conn k)).

Definition update_course (conn : Database) (course : Course) : result unit * Database :=
  let instructor_id := instructor_id_of course in
  execute_commit conn
    (n ← adapt (course_name course);
     i ← adapt instructor_id;
     k ← adapt (course_id course);
     Sql.update_courses conn n i k).

Definition delete_course (conn : Database) (course_id : value) : result unit * Database :=
  execute_commit conn
    (k ← adapt course_id;
     Sql.delete_from_courses conn k).

(** --- Registration Methods --- *)

Definition register_student_in_course (conn : Database) (student_id course_id : value)
  : result unit * Database :=
  reraise_integrity_error
    (execute_commit conn
       (s ← adapt student_id;
        c ← adapt course_id;
        Sql.insert_registrations conn (Registrations.mk s c))).

Definition get_registrations_for_display (conn : Database) : list Sql.display_row :=
  Sql.select_display conn.

End DatabaseManager.

(** ** The constraints of the schema, as a property of a store *)

Fixpoint distinct_keys (keys : list sqlval) : bool :=
  match keys with
  | [] => true
  | k :: keys' => negb (existsb (sql_eq k) keys') && distinct_keys keys'
  end.

Fixpoint distinct_pairs (rows : list Registrations.row) : bool :=
  match rows with
  | [] => true
  | r :: rows' => negb (existsb (Sql.same_pair r) rows') && distinct_pairs rows'
  end.

Definition keys_hold (db : Database) : bool :=
  distinct_keys (map Students.student_id (students db))
  && distinct_keys (map Instructors.instructor_id (instructors db))
  && distinct_keys (map Courses.course_id (courses db))
  && distinct_pairs (registrations db).

Definition references_hold (db : Database) : bool :=
  forallb (fun c => references_ok (Courses.instructor_id c)
                      (map Instructors.instructor_id (instructors db)))
    (courses db)
  && forallb (fun r => references_ok (Registrations.student_id r)
                         (map Students.student_id (students db))
                       && references_ok (Registrations.course_id r)
                            (map Courses.course_id (courses db)))
       (registrations db).

(** The constraints the connection enforces. *)
Definition constraints_hold (db : Database) : bool :=
  keys_hold db && (negb (foreign_keys db) || references_hold db).

(** The calls of the manager.  [run_all] is the store a sequence of them
    produces from the empty tables the schema script creates. *)
Inductive call :=
| AddStudent (student : Student)
| UpdateStudent (student : Student)
| DeleteStudent (student_id : value)
| AddInstructor (instructor : Instructor)
| UpdateInstructor (instructor : Instructor)
| DeleteInstructor (instructor_id : value)
| AddCourse (course : Course)
| UpdateCourse (course : Course)
| DeleteCourse (course_id : value)
| Register (student_id course_id : value).

Definition run (conn : Database) (c : call) : Database :=
  match c with
  | AddStudent s => snd (DatabaseManager.add_student conn s)
  | UpdateStudent s => snd (DatabaseManager.update_student conn s)
  | DeleteStudent i => snd (DatabaseManager.delete_student conn i)
  | AddInstructor s => snd (DatabaseManager.add_instructor conn s)
  | UpdateInstructor s => snd (DatabaseManager.update_instructor conn s)
  | DeleteInstructor i => snd (DatabaseManager.delete_instructor conn i)
  | AddCourse c => snd (DatabaseManager.add_course conn c)
  | UpdateCourse c => snd (DatabaseManager.update_course conn c)
  | DeleteCourse i => snd (DatabaseManager.delete_course conn i)
  | Register s c => snd (DatabaseManager.register_student_in_course conn s c)
  end.

Definition run_all (calls : list call) : Database := fold_left run calls empty_database.

(** Two stores holding the same rows, whatever the order of insertion. *)
Definition same_rows (db db' : Database) : Prop :=
  students db ≡ₚ students db' /\ instructors db ≡ₚ instructors db'
  /\ courses db ≡ₚ courses db' /\ registrations db ≡ₚ registrations db'.

(** The characters of a string. *)
Definition has_char (c : ascii) (s : string) : Prop := In c (list_ascii_of_string s).

(** An identifier without an opening parenthesis that neither begins nor
    ends with a closing one. *)
Definition plain_id (id : string) : Prop :=
  ~ has_char "(" id
  /\ (forall t, id <> String ")" t)
  /\ (forall t, id <> (t ++ String ")" EmptyString)%string).

(** A small store for the examples: Ann and Bob, a course with an
    instructor and one without, and three registrations. *)
Definition ann : Student :=
  mkStudent (mkPerson (VStr "Ann") (VInt 20) (VStr "ann@x.com")) (VStr "S1") [].
Definition bob : Student :=
  mkStudent (mkPerson (VStr "Bob") (VInt 22) (VStr "bob@x.com")) (VStr "S2") [].
Definition turing : Instructor :=
  mkInstructor (mkPerson (VStr "Turing") (VInt 41) (VStr "alan@x.org")) (VStr "I1") [].
Definition algebra : Course := Course.__init__ (VStr "C1") (VStr "Algebra") None.
Definition logic : Course := Course.__init__ (VStr "C2") (VStr "Logic") (Some turing).

Definition example_calls : list call :=
  [AddStudent bob; AddStudent ann; AddInstructor turing; AddCourse logic;
   AddCourse algebra; Register (VStr "S2") (VStr "C2"); Register (VStr "S1") (VStr "C2");
   Register (VStr "S1") (VStr "C1")].

Definition example_store : Database := Eval vm_compute in run_all example_calls.

Definition ann_row : Students.row :=
  Students.mk (SText "S1") (SText "Ann") (SInt 20) (SText "ann@x.com").

(** The scenario of the specification: Bob and Alice, in this order,
    both registered to Math and to Art. *)
Definition bob_alice_calls : list call :=
  [AddStudent (mkStudent (mkPerson (VStr "Bob") (VInt 22) (VStr "bob@x.com")) (VStr "S1") []);
   AddStudent (mkStudent (mkPerson (VStr "Alice") (VInt 21) (VStr "al@x.com")) (VStr "S2") []);
   AddCourse (Course.__init__ (VStr "C1") (VStr "Math") None);
   AddCourse (Course.__init__ (VStr "C2") (VStr "Art") None);
   Register (VStr "S1") (VStr "C1"); Register (VStr "S1") (VStr "C2");
   Register (VStr "S2") (VStr "C1"); Register (VStr "S2") (VStr "C2")].

(** The same rows, inserted in the opposite order. *)
Definition example_store_reversed : Database :=
  mkDatabase true (reverse (students example_store)) (reverse (instructors example_store))
    (reverse (courses example_store)) (reverse (registrations example_store)).

(** The order of the display query on two rows, written out: the student
    name decides, and between equal student names the course name. *)
Definition name_then_course (d d' : Sql.display_row) : Prop :=
  sortkey_compare (sql_key (Sql.d_name d)) (sql_key (Sql.d_name d')) = Lt
  \/ (sql_key (Sql.d_name d) = sql_key (Sql.d_name d')
      /\ (sortkey_compare (sql_key (Sql.d_course_name d))
            (sql_key (Sql.d_course_name d')) = Lt
          \/ sql_key (Sql.d_course_name d) = sql_key (Sql.d_course_name d'))).

(** The store a sequence of calls produces from a given one. *)
Definition run_from (conn : Database) (calls : list call) : Database :=
  fold_left run calls conn.

(** The rows one registration contributes to the join. *)
Definition joined_for (db : Database) (r : Registrations.row) : list Sql.display_row :=
  s ← filter (fun s => sql_eq (Registrations.student_id r) (Students.student_id s) = true)
        (students db);
  c ← filter (fun c => sql_eq (Registrations.course_id r) (Courses.course_id c) = true)
        (courses db);
  [Sql.mk_display (Students.student_id s) (Students.name s)
     (Courses.course_id c) (Courses.course_name c)].

(** ** tkinter_app.py: what the forms do to the store

    Of a handler of the window, the store it leaves and the message box it
    shows; the repainting of the widgets is left out. *)



Module Str.
(** [s.split(sep)], for a separator of one character. *)
Fixpoint split (sep : ascii) (s : string) : list string :=
  match s with
  | EmptyString => [EmptyString]
  | String a s' =>
      if Ascii.eqb a sep then EmptyString :: split sep s'
      else match split sep s' with
           | piece :: pieces => String a piece :: pieces
           | [] => [String a EmptyString]
           end
  end.

Fixpoint lstrip (c : ascii) (s : string) : string :=
  match s with
  | EmptyString => EmptyString
  | String a s' => if Ascii.eqb a c then lstrip c s' else s
  end.

Fixpoint rstrip (c : ascii) (s : string) : string :=
  match s with
  | EmptyString => EmptyString
  | String a s' =>
      match rstrip c s' with
      | EmptyString => if Ascii.eqb a c then EmptyString else String a EmptyString
      | rest => String a rest
      end
  end.

(** [s.strip(chars)], for one character to strip. *)
Definition strip (c : ascii) (s : string) : string := rstrip c (lstrip c s).
End Str.

Module Tk.
(** The message boxes; [showerror] carries the exception whose text it
    shows after its own. *)
Inductive messagebox :=
| showinfo (title message : string)
| showwarning (title message : string)
| showerror (title message : string) (e : exn).

(** An entry of a dropdown, [f"{s[1]} ({s[0]})"], for a row whose name and
    identifier are text. *)
Definition label (name id : string) : string := name ++ " (" ++ id ++ ")".

(** [sel.split('(')[-1].strip(')')] *)
Definition selected_id (sel : string) : string :=
  Str.strip ")" (List.last (Str.split "(" sel) "").

Definition register_student_for_course (conn : Database) (student_sel course_sel : string)
  : messagebox * Database :=
  if String.eqb student_sel "" || String.eqb course_sel "" then
    (showwarning "Selection Error" "Please select both a student and a course.", conn)
  else
    let student_id := selected_id student_sel in
    let course_id := selected_id course_sel in
    match DatabaseManager.register_student_in_course conn
            (VStr student_id) (VStr course_id) with
    | (Ok _, conn') =>
        (showinfo "Success"
           ("Registered Student '" ++ student_id ++ "' for Course '" ++ course_id ++ "'."),
         conn')
    | (Raise (IntegrityError _), conn') =>
        (showwarning "Registration Error"
           "This student is already registered for this course.", conn')
    | (Raise e, conn') =>
        (showerror "Error" "An unexpected registration error occurred: " e, conn')
    end.


End Tk.

(** * Properties *)

(** ** Sort keys and the comparison of cells *)

Lemma string_compare_refl (s : string) : String.compare s s = Eq.
Proof.
  induction s as [|c s IH]; simpl; [reflexivity|].
  unfold Ascii.compare. rewrite N.compare_refl. exact IH.
Qed.

Lemma number_compare_eq (x y : number) : number_compare x y = Eq <-> x = y.
Proof.
  destruct x, y; simpl; split; intros H; try discriminate; try reflexivity.
  - f_equal. now apply Qceq_alt.
  - inversion H; subst. now apply Qceq_alt.
Qed.

Lemma sortkey_compare_eq (a b : sortkey) : sortkey_compare a b = Eq <-> a = b.
Proof.
  destruct a, b; simpl; split; intros H; try discriminate; try reflexivity.
  - f_equal. now apply number_compare_eq.
  - inversion H; subst. now apply number_compare_eq.
  - f_equal. now apply String.compare_eq_iff.
  - inversion H; subst. apply string_compare_refl.
Qed.

Lemma sql_eq_spec (a b : sqlval) :
  sql_eq a b = true <-> sql_key a = sql_key b /\ sql_key a <> KNull.
Proof.
  unfold sql_eq, is_null.
  destruct (sortkey_compare (sql_key a) (sql_key b)) eqn:E.
  - apply sortkey_compare_eq in E. rewrite <- E.
    destruct (sql_key a); simpl; split; intros H;
      try discriminate; try (split; congruence).
    destruct H as [_ H]. congruence.
  - assert (sql_key a <> sql_key b) by (intros H; apply sortkey_compare_eq in H; congruence).
    rewrite !andb_false_r. split; [discriminate | tauto].
  - assert (sql_key a <> sql_key b) by (intros H; apply sortkey_compare_eq in H; congruence).
    rewrite !andb_false_r. split; [discriminate | tauto].
Qed.

Lemma sql_eq_sym (a b : sqlval) : sql_eq a b = sql_eq b a.
Proof.
  apply eq_true_iff_eq. rewrite !sql_eq_spec.
  split; intros [H1 H2]; split; congruence.
Qed.

Lemma sql_eq_trans (a b c : sqlval) :
  sql_eq a b = true -> sql_eq b c = true -> sql_eq a c = true.
Proof. rewrite !sql_eq_spec. intros [H1 H2] [H3 H4]. split; congruence. Qed.


(** ** The constructors *)

Lemma substring_in_char (c : ascii) (s : string) :
  substring_in (String c "") s = true <-> has_char c s.
Proof.
  unfold has_char. induction s as [|a s IH]; simpl.
  - split; [discriminate | tauto].
  - destruct (ascii_dec c a) as [->|Hne].
    + replace (String.prefix "" s) with true by (now destruct s). simpl. tauto.
    + simpl. rewrite IH. split; [tauto | intros [H|H]; congruence].
Qed.

Lemma str_not_in_char (c : ascii) (s : string) :
  str_not_in (String c "") (VStr s) = Ok false <-> has_char c s.
Proof.
  simpl. rewrite <- substring_in_char.
  destruct (substring_in (String c "") s); simpl; split; congruence.
Qed.

Lemma str_not_in_string (c : ascii) (s : string) :
  str_not_in (String c "") (VStr s) = Ok (negb (substring_in (String c "") s)).
Proof. reflexivity. Qed.

(** An age that is not an [int], or is a negative one, stops the
    constructor at the age check, whatever the email is. *)
Lemma bad_age_raises (n a e : value) :
  isinstance_int a = false \/ (exists z, int_value a = Some z /\ z < 0) ->
  Person.__init__ n a e = Raise (ValueError age_message).
Proof.
  intros [H | (z & Hz & Hneg)]; unfold Person.__init__.
  - rewrite H. reflexivity.
  - destruct a as [| b | z' | | |]; simpl in Hz; try discriminate.
    + destruct b; simpl in Hz; inversion Hz; subst; lia.
    + inversion Hz; subst. simpl.
      replace (Z.ltb z 0) with true by (symmetry; apply Z.ltb_lt; exact Hneg).
      reflexivity.
Qed.

(** A non-negative [int] passes the age check: the outcome is that of the
    email check. *)
Lemma good_age_passes (n a e : value) (z : Z) :
  int_value a = Some z -> 0 <= z ->
  Person.__init__ n a e =
    (bad_email ← (no_at ← str_not_in "@" e;
                  if (no_at : bool) then Ok true else str_not_in "." e);
     if (bad_email : bool) then Raise (ValueError email_message)
     else Ok (mkPerson n a e)).
Proof.
  intros Hz Hpos. unfold Person.__init__.
  destruct a as [| b | z' | | |]; simpl in Hz; try discriminate.
  - destruct b; reflexivity.
  - inversion Hz; subst. simpl.
    replace (Z.ltb z 0) with false by (symmetry; apply Z.ltb_ge; exact Hpos).
    reflexivity.
Qed.

(** With an accepted age and a string for email, the outcome is decided
    by the two substring tests. *)
Lemma person_init_string (n a : value) (z : Z) (email : string) :
  int_value a = Some z -> 0 <= z ->
  Person.__init__ n a (VStr email) =
    if negb (substring_in "@" email) || negb (substring_in "." email)
    then Raise (ValueError email_message)
    else Ok (mkPerson n a (VStr email)).
Proof.
  intros Hz Hpos. rewrite (good_age_passes n a (VStr email) z Hz Hpos). simpl.
  destruct (substring_in "@" email); reflexivity.
Qed.

Lemma valid_person_constructed (n a : value) (z : Z) (email : string) :
  int_value a = Some z -> 0 <= z -> has_char "@" email -> has_char "." email ->
  Person.__init__ n a (VStr email) = Ok (mkPerson n a (VStr email)).
Proof.
  intros Hz Hpos Hat Hdot. rewrite (person_init_string n a z email Hz Hpos).
  apply substring_in_char in Hat, Hdot. now rewrite Hat, Hdot.
Qed.

(** C4: an age that is negative or not an integer makes the construction
    of a Person, and so of a Student or an Instructor, fail with the
    ValidationError "Age must be a non-negative integer."; an age that is
    an integer at least 0 passes the age check, so the construction does
    not fail with that error. *)
Theorem age_validation (n a e i : value) :
  (isinstance_int a = false \/ (exists z, int_value a = Some z /\ z < 0) ->
   Person.__init__ n a e = Raise (ValidationError age_message)
   /\ Student.__init__ n a e i = Raise (ValidationError age_message)
   /\ Instructor.__init__ n a e i = Raise (ValidationError age_message))
  /\ ((exists z, int_value a = Some z /\ 0 <= z) ->
      Person.__init__ n a e <> Raise (ValidationError age_message)
      /\ Student.__init__ n a e i <> Raise (ValidationError age_message)
      /\ Instructor.__init__ n a e i <> Raise (ValidationError age_message)).
Proof.
  split.
  - intros H. pose proof (bad_age_raises n a e H) as HP.
    unfold Student.__init__, Instructor.__init__. rewrite HP. auto.
  - intros (z & Hz & Hpos).
    assert (HP : Person.__init__ n a e <> Raise (ValidationError age_message)).
    { rewrite (good_age_passes n a e z Hz Hpos).
      destruct e as [| | | | s | l]; simpl; try discriminate.
      - destruct (substring_in "@" s); simpl; [|discriminate].
        destruct (substring_in "." s); simpl; discriminate.
      - destruct (existsb (str_eq "@") l); simpl; [|discriminate].
        destruct (existsb (str_eq ".") l); simpl; discriminate. }
    split; [exact HP|].
    unfold Student.__init__, Instructor.__init__.
    destruct (Person.__init__ n a e) as [p|x]; simpl.
    + split; intros H; discriminate H.
    + split; intros H; apply HP; congruence.
Qed.

Lemma age_validation_witness :
  Person.__init__ (VStr "Ann") (VInt (-1)) (VStr "ann@x.com")
    = Raise (ValidationError age_message)
  /\ Student.__init__ (VStr "Ann") (VFloat (S754_finite false 41 (-1))) (VStr "ann@x.com")
       (VStr "S1") = Raise (ValidationError age_message)
  /\ Person.__init__ (VStr "Ann") (VInt 20) (VStr "ann@x.com")
       <> Raise (ValidationError age_message).
Proof.
  split; [|split].
  - apply (age_validation (VStr "Ann") (VInt (-1)) (VStr "ann@x.com") VNone).
    right. exists (-1). split; [reflexivity | lia].
  - apply (age_validation (VStr "Ann") (VFloat (S754_finite false 41 (-1)))
             (VStr "ann@x.com") (VStr "S1")).
    left. reflexivity.
  - apply (age_validation (VStr "Ann") (VInt 20) (VStr "ann@x.com") VNone).
    exists 20. split; [reflexivity | lia].
Defined.

(** C5: once the age is accepted, constructing a Person (a Student, an
    Instructor) fails with the ValidationError "Email address is not
    valid." exactly when the email string lacks '@' or lacks '.'; a string
    holding both characters is accepted as it is, nothing else in it being
    looked at. *)
Theorem email_validation (n a i : value) (z : Z) (email : string) :
  int_value a = Some z -> 0 <= z ->
  (Person.__init__ n a (VStr email) = Raise (ValidationError email_message)
     <-> ~ has_char "@" email \/ ~ has_char "." email)
  /\ (Student.__init__ n a (VStr email) i = Raise (ValidationError email_message)
     <-> ~ has_char "@" email \/ ~ has_char "." email)
  /\ (Instructor.__init__ n a (VStr email) i = Raise (ValidationError email_message)
     <-> ~ has_char "@" email \/ ~ has_char "." email)
  /\ (has_char "@" email /\ has_char "." email ->
      Person.__init__ n a (VStr email) = Ok (mkPerson n a (VStr email))
      /\ Student.__init__ n a (VStr email) i
           = Ok (mkStudent (mkPerson n a (VStr email)) i [])
      /\ Instructor.__init__ n a (VStr email) i
           = Ok (mkInstructor (mkPerson n a (VStr email)) i [])).
Proof.
  intros Hz Hpos.
  pose proof (person_init_string n a z email Hz Hpos) as HP.
  pose proof (substring_in_char "@" email) as Hat.
  pose proof (substring_in_char "." email) as Hdot.
  assert (Hlacks : negb (substring_in "@" email) || negb (substring_in "." email) = true
                   <-> ~ has_char "@" email \/ ~ has_char "." email).
  { rewrite <- Hat, <- Hdot.
    destruct (substring_in "@" email), (substring_in "." email); simpl;
      intuition congruence. }
  unfold Student.__init__, Instructor.__init__. rewrite HP.
  destruct (negb (substring_in "@" email) || negb (substring_in "." email)); simpl.
  - apply proj1 in Hlacks. specialize (Hlacks eq_refl).
    split_and!; tauto.
  - assert (~ (~ has_char "@" email \/ ~ has_char "." email)) as Hno.
    { intros H. apply Hlacks in H. discriminate. }
    split_and!; try (split; [discriminate | tauto]). auto.
Qed.

Lemma email_validation_witness :
  Person.__init__ (VStr "Ann") (VInt 20) (VStr "@.")
    = Ok (mkPerson (VStr "Ann") (VInt 20) (VStr "@."))
  /\ (Person.__init__ (VStr "Ann") (VInt 20) (VStr "ann.x.com")
        = Raise (ValidationError email_message)).
Proof.
  split.
  - apply (email_validation (VStr "Ann") (VInt 20) VNone 20 "@."); [reflexivity | lia |].
    unfold has_char; simpl; tauto.
  - apply (email_validation (VStr "Ann") (VInt 20) VNone 20 "ann.x.com");
      [reflexivity | lia |].
    left. unfold has_char. simpl. intros H.
    repeat (destruct H as [H|H]; [discriminate H|]). exact H.
Defined.

(** C9: the age is checked before the email: when the age is negative or
    not an integer and the email lacks '@' or '.', the construction fails
    with the age message, not with the email one. *)
Theorem age_checked_before_email (n a i : value) (email : string) :
  isinstance_int a = false \/ (exists z, int_value a = Some z /\ z < 0) ->
  ~ has_char "@" email \/ ~ has_char "." email ->
  Person.__init__ n a (VStr email) = Raise (ValidationError age_message)
  /\ Person.__init__ n a (VStr email) <> Raise (ValidationError email_message)
  /\ Student.__init__ n a (VStr email) i = Raise (ValidationError age_message)
  /\ Instructor.__init__ n a (VStr email) i = Raise (ValidationError age_message).
Proof.
  intros Hage _. pose proof (bad_age_raises n a (VStr email) Hage) as HP.
  unfold Student.__init__, Instructor.__init__. rewrite HP.
  repeat split; try reflexivity. discriminate.
Qed.

Lemma age_checked_before_email_witness :
  Person.__init__ (VStr "Ann") (VInt (-3)) (VStr "nowhere")
  = Raise (ValidationError age_message).
Proof.
  apply (age_checked_before_email (VStr "Ann") (VInt (-3)) VNone "nowhere").
  - right. exists (-3). split; [reflexivity | lia].
  - left. unfold has_char. simpl. intros H.
    repeat (destruct H as [H|H]; [discriminate H|]). exact H.
Defined.

(** ** Export and reconstruction *)

Lemma student_to_dict_from_dict (s : Student) :
  Student.from_dict (Student.to_dict s)
  = Student.__init__ (name s) (age s) (_email s) (student_id s).
Proof. reflexivity. Qed.

Lemma instructor_to_dict_from_dict (i : Instructor) :
  Instructor.from_dict (Instructor.to_dict i)
  = Instructor.__init__ (name i) (age i) (_email i) (instructor_id i).
Proof. reflexivity. Qed.

(** C6: for any name and identifier, an age that is an integer at least 0
    and an email string holding '@' and '.', the construction of a Student
    and of an Instructor succeeds, and the object rebuilt by from_dict from
    its to_dict export is the object itself: same name, age, email and
    identifier. *)
Theorem export_roundtrip (n a i : value) (z : Z) (email : string) :
  int_value a = Some z -> 0 <= z -> has_char "@" email -> has_char "." email ->
  (exists s, Student.__init__ n a (VStr email) i = Ok s
     /\ name s = n /\ age s = a /\ _email s = VStr email /\ student_id s = i
     /\ Student.from_dict (Student.to_dict s) = Ok s)
  /\ (exists t, Instructor.__init__ n a (VStr email) i = Ok t
     /\ name t = n /\ age t = a /\ _email t = VStr email /\ instructor_id t = i
     /\ Instructor.from_dict (Instructor.to_dict t) = Ok t).
Proof.
  intros Hz Hpos Hat Hdot.
  pose proof (valid_person_constructed n a z email Hz Hpos Hat Hdot) as HP.
  assert (HS : Student.__init__ n a (VStr email) i
               = Ok (mkStudent (mkPerson n a (VStr email)) i []))
    by (unfold Student.__init__; now rewrite HP).
  assert (HI : Instructor.__init__ n a (VStr email) i
               = Ok (mkInstructor (mkPerson n a (VStr email)) i []))
    by (unfold Instructor.__init__; now rewrite HP).
  split.
  - eexists. split; [exact HS|]. repeat split.
    rewrite student_to_dict_from_dict. exact HS.
  - eexists. split; [exact HI|]. repeat split.
    rewrite instructor_to_dict_from_dict. exact HI.
Qed.

Lemma export_roundtrip_witness :
  exists s, Student.__init__ (VStr "Ann") (VInt 20) (VStr "ann@x.com") (VStr "S1") = Ok s
    /\ name s = VStr "Ann" /\ age s = VInt 20 /\ _email s = VStr "ann@x.com"
    /\ student_id s = VStr "S1"
    /\ Student.from_dict (Student.to_dict s) = Ok s.
Proof.
  apply (export_roundtrip (VStr "Ann") (VInt 20) (VStr "S1") 20 "ann@x.com").
  - reflexivity.
  - lia.
  - unfold has_char. simpl. tauto.
  - unfold has_char. simpl. tauto.
Defined.

Lemma from_dict_list_empty (data : gmap string value) (s : Student) :
  Student.from_dict data = Ok s -> registered_courses s = [].
Proof.
  unfold Student.from_dict, Student.__init__.
  destruct (getitem data "name") as [n|]; simpl; [|discriminate].
  destruct (getitem data "age") as [a|]; simpl; [|discriminate].
  destruct (getitem data "email") as [e|]; simpl; [|discriminate].
  destruct (getitem data "student_id") as [i|]; simpl; [|discriminate].
  destruct (Person.__init__ n a e) as [p|]; simpl; [|discriminate].
  intros H. inversion H. reflexivity.
Qed.

Lemma from_dict_assigned_empty (data : gmap string value) (t : Instructor) :
  Instructor.from_dict data = Ok t -> assigned_courses t = [].
Proof.
  unfold Instructor.from_dict, Instructor.__init__.
  destruct (getitem data "name") as [n|]; simpl; [|discriminate].
  destruct (getitem data "age") as [a|]; simpl; [|discriminate].
  destruct (getitem data "email") as [e|]; simpl; [|discriminate].
  destruct (getitem data "instructor_id") as [i|]; simpl; [|discriminate].
  destruct (Person.__init__ n a e) as [p|]; simpl; [|discriminate].
  intros H. inversion H. reflexivity.
Qed.

Lemma getitem_insert_ne (data : gmap string value) (k k' : string) (v : value) :
  k <> k' -> getitem (<[k := v]> data) k' = getitem data k'.
Proof. intros H. unfold getitem. rewrite lookup_insert_ne by exact H. reflexivity. Qed.

(** C10: whatever the dictionary holds, an object that Student.from_dict
    (Instructor.from_dict) builds has an empty registered_courses
    (assigned_courses) list, and the entry of that name plays no part:
    with any value put there the result is the same. *)
Theorem from_dict_drops_lists (data : gmap string value) (v : value) :
  (forall s, Student.from_dict data = Ok s -> registered_courses s = [])
  /\ Student.from_dict (<["registered_courses" := v]> data) = Student.from_dict data
  /\ (forall t, Instructor.from_dict data = Ok t -> assigned_courses t = [])
  /\ Instructor.from_dict (<["assigned_courses" := v]> data) = Instructor.from_dict data.
Proof.
  split; [apply from_dict_list_empty|].
  split.
  { unfold Student.from_dict. rewrite !getitem_insert_ne by discriminate. reflexivity. }
  split; [apply from_dict_assigned_empty|].
  unfold Instructor.from_dict. rewrite !getitem_insert_ne by discriminate. reflexivity.
Qed.

Lemma from_dict_drops_lists_witness :
  registered_courses
    (mkStudent (mkPerson (VStr "Ann") (VInt 20) (VStr "ann@x.com")) (VStr "S1") []) = []
  /\ Student.from_dict
       (<["registered_courses" := (VList [VStr "C1"; VStr "C2"]) ]>
          (Student.to_dict
             (mkStudent (mkPerson (VStr "Ann") (VInt 20) (VStr "ann@x.com")) (VStr "S1")
                [Course.__init__ (VStr "C1") (VStr "Algebra") None])))
     = Ok (mkStudent (mkPerson (VStr "Ann") (VInt 20) (VStr "ann@x.com")) (VStr "S1") []).
Proof.
  pose proof (from_dict_drops_lists
    (Student.to_dict
       (mkStudent (mkPerson (VStr "Ann") (VInt 20) (VStr "ann@x.com")) (VStr "S1")
          [Course.__init__ (VStr "C1") (VStr "Algebra") None]))
    (VList [VStr "C1"; VStr "C2"])) as (Hempty & Hsame & _).
  split.
  - apply Hempty. reflexivity.
  - rewrite Hsame. reflexivity.
Defined.

(** ** Keys and references *)

Section columns.
Context {A : Type} (column : A -> sqlval).

Lemma existsb_matching (key : sqlval) (l : list A) :
  existsb (Sql.matching column key) l = true
  <-> exists r, r ∈ l /\ sql_eq (column r) key = true.
Proof.
  rewrite existsb_exists. unfold Sql.matching.
  split; intros (r & Hin & Heq); exists r; split; auto; now apply list_elem_of_In.
Qed.

Lemma existsb_key (key : sqlval) (l : list A) :
  existsb (sql_eq key) (map column l) = true
  <-> exists r, r ∈ l /\ sql_eq (column r) key = true.
Proof.
  rewrite existsb_exists. split.
  - intros (k & Hin & Heq). apply in_map_iff in Hin as (r & <- & Hin).
    exists r. split; [now apply list_elem_of_In | now rewrite sql_eq_sym].
  - intros (r & Hin & Heq). exists (column r). split.
    + apply in_map. now apply list_elem_of_In.
    + now rewrite sql_eq_sym.
Qed.

Lemma references_ok_spec (child : sqlval) (l : list A) :
  references_ok child (map column l) = true
  <-> is_null child = true \/ exists r, r ∈ l /\ sql_eq (column r) child = true.
Proof. unfold references_ok. rewrite orb_true_iff, existsb_key. reflexivity. Qed.

Lemma distinct_keys_cons (r : A) (l : list A) :
  distinct_keys (map column (r :: l)) = true
  <-> (forall r', r' ∈ l -> sql_eq (column r') (column r) = false)
      /\ distinct_keys (map column l) = true.
Proof.
  simpl. rewrite andb_true_iff, negb_true_iff.
  split; intros [H1 H2]; split; auto.
  - intros r' Hin. destruct (sql_eq (column r') (column r)) eqn:E; [|reflexivity].
    assert (existsb (sql_eq (column r)) (map column l) = true) as Hex
      by (apply existsb_key; eauto).
    congruence.
  - destruct (existsb (sql_eq (column r)) (map column l)) eqn:E; [|reflexivity].
    apply existsb_key in E as (r' & Hin & Heq). rewrite (H1 r' Hin) in Heq. discriminate.
Qed.

(** Under a key constraint the rows matching a key are the row that has it. *)
Lemma select_where_unique (l : list A) (key : sqlval) (row : A) :
  distinct_keys (map column l) = true ->
  row ∈ l -> sql_eq (column row) key = true ->
  filter (fun r => Sql.matching column key r = true) l = [row].
Proof.
  unfold Sql.matching.
  induction l as [|x l IH]; intros Hd Hin Heq; [inversion Hin|].
  apply distinct_keys_cons in Hd as [Hx Hd].
  assert (Hnone : (forall r', r' ∈ l -> sql_eq (column r') key = false) ->
                  filter (fun r => sql_eq (column r) key = true) l = []).
  { clear. induction l as [|y l IH]; intros H; [reflexivity|].
    rewrite filter_cons_False.
    - apply IH. intros r' Hr'. apply H. now right.
    - rewrite (H y) by left. discriminate. }
  apply elem_of_cons in Hin as [-> | Hin].
  - rewrite filter_cons_True by exact Heq. f_equal. apply Hnone.
    intros r' Hr'. destruct (sql_eq (column r') key) eqn:E; [|reflexivity].
    rewrite <- (Hx r' Hr'). symmetry. apply sql_eq_trans with key; [exact E|].
    now rewrite sql_eq_sym.
  - rewrite filter_cons_False; [now apply IH|].
    intros E. assert (sql_eq (column row) (column x) = true) as Hc.
    { apply sql_eq_trans with key; [exact Heq | now rewrite sql_eq_sym]. }
    rewrite (Hx row Hin) in Hc. discriminate.
Qed.

Lemma select_where_empty (l : list A) (key : sqlval) :
  (forall r, r ∈ l -> sql_eq (column r) key = false) ->
  filter (fun r => Sql.matching column key r = true) l = [].
Proof.
  unfold Sql.matching. induction l as [|y l IH]; intros H; [reflexivity|].
  rewrite filter_cons_False.
  - apply IH. intros r' Hr'. apply H. now right.
  - rewrite (H y) by left. discriminate.
Qed.

Lemma update_where_none (f : A -> A) (l : list A) (key : sqlval) :
  (forall r, r ∈ l -> sql_eq (column r) key = false) ->
  map (fun r => if Sql.matching column key r then f r else r) l = l.
Proof.
  unfold Sql.matching. induction l as [|y l IH]; intros H; [reflexivity|].
  simpl. rewrite (H y) by left. f_equal. apply IH.
  intros r Hr. apply H. now right.
Qed.

Lemma distinct_keys_snoc (l : list A) (r : A) :
  distinct_keys (map column l) = true ->
  existsb (Sql.matching column (column r)) l = false ->
  distinct_keys (map column (l ++ [r])) = true.
Proof.
  induction l as [|x l IH]; intros Hd Hnew; [reflexivity|].
  simpl in Hnew. apply orb_false_iff in Hnew as [Hx Hnew].
  apply distinct_keys_cons in Hd as [Hxl Hd].
  change (((x :: l) ++ [r])%list) with ((x :: (l ++ [r]))%list).
  apply distinct_keys_cons. split; [|now apply IH].
  intros r' Hr'. apply elem_of_app in Hr' as [Hr' | Hr'].
  - now apply Hxl.
  - apply list_elem_of_singleton in Hr' as ->. unfold Sql.matching in Hx.
    now rewrite sql_eq_sym.
Qed.

Lemma distinct_keys_filter (P : A -> Prop) `{forall x, Decision (P x)} (l : list A) :
  distinct_keys (map column l) = true -> distinct_keys (map column (filter P l)) = true.
Proof.
  induction l as [|x l IH]; intros Hd; [reflexivity|].
  apply distinct_keys_cons in Hd as [Hxl Hd].
  rewrite filter_cons. destruct (decide (P x)); [|now apply IH].
  apply distinct_keys_cons. split; [|now apply IH].
  intros r' Hr'. apply list_elem_of_filter in Hr' as [_ Hr']. now apply Hxl.
Qed.

Lemma distinct_keys_update (f : A -> A) (l : list A) :
  (forall r, column (f r) = column r) ->
  map column (map f l) = map column l.
Proof.
  intros Hf. rewrite map_map. apply map_ext. exact Hf.
Qed.

End columns.

Lemma references_ok_mono {A} (column : A -> sqlval) (child : sqlval) (l l' : list A) :
  (forall r, r ∈ l -> sql_eq (column r) child = true -> r ∈ l') ->
  references_ok child (map column l) = true ->
  references_ok child (map column l') = true.
Proof.
  intros Hsub. rewrite !references_ok_spec.
  intros [Hnull | (r & Hin & Heq)]; [now left | right]. exists r. auto.
Qed.

Lemma distinct_pairs_cons (r : Registrations.row) (l : list Registrations.row) :
  distinct_pairs (r :: l) = true
  <-> (forall r', r' ∈ l -> Sql.same_pair r r' = false) /\ distinct_pairs l = true.
Proof.
  simpl. rewrite andb_true_iff, negb_true_iff. split; intros [H1 H2]; split; auto.
  - intros r' Hin. destruct (Sql.same_pair r r') eqn:E; [|reflexivity].
    assert (existsb (Sql.same_pair r) l = true) as Hex.
    { apply existsb_exists. exists r'. split; [now apply list_elem_of_In | exact E]. }
    congruence.
  - destruct (existsb (Sql.same_pair r) l) eqn:E; [|reflexivity].
    apply existsb_exists in E as (r' & Hin & Heq).
    apply list_elem_of_In in Hin. rewrite (H1 r' Hin) in Heq. discriminate.
Qed.

Lemma same_pair_sym (r r' : Registrations.row) : Sql.same_pair r r' = Sql.same_pair r' r.
Proof.
  unfold Sql.same_pair.
  now rewrite (sql_eq_sym (Registrations.student_id r')),
              (sql_eq_sym (Registrations.course_id r')).
Qed.

Lemma distinct_pairs_snoc (l : list Registrations.row) (r : Registrations.row) :
  distinct_pairs l = true -> existsb (Sql.same_pair r) l = false ->
  distinct_pairs (l ++ [r]) = true.
Proof.
  induction l as [|x l IH]; intros Hd Hnew; [reflexivity|].
  simpl in Hnew. apply orb_false_iff in Hnew as [Hx Hnew].
  apply distinct_pairs_cons in Hd as [Hxl Hd].
  change (((x :: l) ++ [r])%list) with ((x :: (l ++ [r]))%list).
  apply distinct_pairs_cons. split; [|now apply IH].
  intros r' Hr'. apply elem_of_app in Hr' as [Hr' | Hr'].
  - now apply Hxl.
  - apply list_elem_of_singleton in Hr' as ->. now rewrite same_pair_sym.
Qed.

(** Under the pair constraint, the rows of a registered pair are one row. *)
Lemma select_pair_unique (l : list Registrations.row) (r row : Registrations.row) :
  distinct_pairs l = true -> row ∈ l -> Sql.same_pair r row = true ->
  filter (fun r' => Sql.same_pair r r' = true) l = [row].
Proof.
  assert (Htrans : forall a b, Sql.same_pair r a = true -> Sql.same_pair r b = true ->
                               Sql.same_pair a b = true).
  { unfold Sql.same_pair. intros a b Ha Hb.
    apply andb_true_iff in Ha as [Ha1 Ha2]. apply andb_true_iff in Hb as [Hb1 Hb2].
    apply andb_true_iff. split.
    - apply sql_eq_trans with (Registrations.student_id r); [exact Hb1|].
      now rewrite sql_eq_sym.
    - apply sql_eq_trans with (Registrations.course_id r); [exact Hb2|].
      now rewrite sql_eq_sym. }
  induction l as [|x l IH]; intros Hd Hin Heq; [inversion Hin|].
  apply distinct_pairs_cons in Hd as [Hx Hd].
  apply elem_of_cons in Hin as [-> | Hin].
  - rewrite filter_cons_True by exact Heq. f_equal.
    assert (forall r', r' ∈ l -> Sql.same_pair r r' = false) as Hno.
    { intros r' Hr'. destruct (Sql.same_pair r r') eqn:E; [|reflexivity].
      rewrite <- (Hx r' Hr'). symmetry. now apply Htrans. }
    clear -Hno. induction l as [|y l IH]; [reflexivity|].
    rewrite filter_cons_False.
    + apply IH. intros r' Hr'. apply Hno. now right.
    + rewrite (Hno y) by left. discriminate.
  - rewrite filter_cons_False; [now apply IH|].
    intros E. assert (Sql.same_pair x row = true) as Hc by now apply Htrans.
    rewrite (Hx row Hin) in Hc. discriminate.
Qed.

Lemma constraints_hold_spec (db : Database) :
  constraints_hold db = true <->
  distinct_keys (map Students.student_id (students db)) = true
  /\ distinct_keys (map Instructors.instructor_id (instructors db)) = true
  /\ distinct_keys (map Courses.course_id (courses db)) = true
  /\ distinct_pairs (registrations db) = true
  /\ (foreign_keys db = true ->
      (forall c, c ∈ courses db ->
         references_ok (Courses.instructor_id c)
           (map Instructors.instructor_id (instructors db)) = true)
      /\ (forall r, r ∈ registrations db ->
            references_ok (Registrations.student_id r)
              (map Students.student_id (students db)) = true
            /\ references_ok (Registrations.course_id r)
                 (map Courses.course_id (courses db)) = true)).
Proof.
  unfold constraints_hold, keys_hold, references_hold.
  rewrite !andb_true_iff, orb_true_iff, negb_true_iff, andb_true_iff, !forallb_forall.
  setoid_rewrite andb_true_iff.
  setoid_rewrite list_elem_of_In.
  destruct (foreign_keys db); intuition congruence.
Qed.

Lemma keys_hold_spec (db : Database) :
  keys_hold db = true <->
  distinct_keys (map Students.student_id (students db)) = true
  /\ distinct_keys (map Instructors.instructor_id (instructors db)) = true
  /\ distinct_keys (map Courses.course_id (courses db)) = true
  /\ distinct_pairs (registrations db) = true.
Proof. unfold keys_hold. rewrite !andb_true_iff. tauto. Qed.

Lemma constraints_hold_keys (db : Database) :
  constraints_hold db = true -> keys_hold db = true.
Proof. unfold constraints_hold. rewrite andb_true_iff. tauto. Qed.

(** ** Every statement keeps the constraints *)

Ltac keep_constraints H Hrefs :=
  apply constraints_hold_spec in H as (?Hs & ?Hi & ?Hc & ?Hp & Hrefs);
  apply constraints_hold_spec; simpl; split_and!; auto.

Lemma insert_students_keeps db r n db' :
  constraints_hold db = true -> Sql.insert_students db r = Ok (n, db') ->
  constraints_hold db' = true.
Proof.
  intros H. unfold Sql.insert_students.
  destruct (existsb _ (students db)) eqn:E; [discriminate|].
  intros [= <- <-]. keep_constraints H Hrefs.
  - now apply distinct_keys_snoc.
  - intros Hfk. destruct (Hrefs Hfk) as [Hci Hr]. split; [exact Hci|].
    intros g Hg. split; [|now apply Hr].
    eapply references_ok_mono; [|apply Hr; eassumption].
    intros s Hin _. apply elem_of_app. now left.
Qed.

Lemma update_students_keeps db n a e k m db' :
  constraints_hold db = true -> Sql.update_students db n a e k = Ok (m, db') ->
  constraints_hold db' = true.
Proof.
  intros H. unfold Sql.update_students. intros [= <- <-].
  apply constraints_hold_spec in H. apply constraints_hold_spec. simpl.
  rewrite (distinct_keys_update Students.student_id)
    by (intros r; destruct (Sql.matching _ k r); reflexivity).
  exact H.
Qed.

Lemma delete_from_students_keeps db k m db' :
  constraints_hold db = true -> Sql.delete_from_students db k = Ok (m, db') ->
  constraints_hold db' = true.
Proof.
  intros H. unfold Sql.delete_from_students.
  destruct (foreign_keys db && _) eqn:E; [discriminate|].
  intros [= <- <-]. keep_constraints H Hrefs.
  - now apply distinct_keys_filter.
  - intros Hfk. destruct (Hrefs Hfk) as [Hci Hr]. split; [exact Hci|].
    rewrite Hfk in E. simpl in E.
    intros g Hg. split; [|now apply Hr].
    eapply references_ok_mono; [|apply Hr; eassumption].
    intros s Hin Heq. apply list_elem_of_filter. split; [|exact Hin].
    destruct (Sql.matching Students.student_id k s) eqn:Em; [|reflexivity].
    exfalso. rewrite <- not_true_iff_false in E. apply E.
    apply existsb_exists. exists s. split.
    + apply list_elem_of_In. apply list_elem_of_filter. now split.
    + apply existsb_matching. exists g. split; [assumption|].
      now rewrite sql_eq_sym.
Qed.

Lemma insert_instructors_keeps db r n db' :
  constraints_hold db = true -> Sql.insert_instructors db r = Ok (n, db') ->
  constraints_hold db' = true.
Proof.
  intros H. unfold Sql.insert_instructors.
  destruct (existsb _ (instructors db)) eqn:E; [discriminate|].
  intros [= <- <-]. keep_constraints H Hrefs.
  - now apply distinct_keys_snoc.
  - intros Hfk. destruct (Hrefs Hfk) as [Hci Hr]. split; [|exact Hr].
    intros c Hin. eapply references_ok_mono; [|apply Hci; eassumption].
    intros s Hin' _. apply elem_of_app. now left.
Qed.

Lemma update_instructors_keeps db n a e k m db' :
  constraints_hold db = true -> Sql.update_instructors db n a e k = Ok (m, db') ->
  constraints_hold db' = true.
Proof.
  intros H. unfold Sql.update_instructors. intros [= <- <-].
  apply constraints_hold_spec in H. apply constraints_hold_spec. simpl.
  rewrite (distinct_keys_update Instructors.instructor_id)
    by (intros r; destruct (Sql.matching _ k r); reflexivity).
  exact H.
Qed.

Lemma delete_from_instructors_keeps db k m db' :
  constraints_hold db = true -> Sql.delete_from_instructors db k = Ok (m, db') ->
  constraints_hold db' = true.
Proof.
  intros H. unfold Sql.delete_from_instructors.
  destruct (foreign_keys db && _) eqn:E; [discriminate|].
  intros [= <- <-]. keep_constraints H Hrefs.
  - now apply distinct_keys_filter.
  - intros Hfk. destruct (Hrefs Hfk) as [Hci Hr]. split; [|exact Hr].
    rewrite Hfk in E. simpl in E.
    intros c Hin. eapply references_ok_mono; [|apply Hci; eassumption].
    intros s Hin' Heq. apply list_elem_of_filter. split; [|exact Hin'].
    destruct (Sql.matching Instructors.instructor_id k s) eqn:Em; [|reflexivity].
    exfalso. rewrite <- not_true_iff_false in E. apply E.
    apply existsb_exists. exists s. split.
    + apply list_elem_of_In. apply list_elem_of_filter. now split.
    + apply existsb_matching. exists c. split; [assumption|].
      now rewrite sql_eq_sym.
Qed.

Lemma insert_courses_keeps db r n db' :
  constraints_hold db = true -> Sql.insert_courses db r = Ok (n, db') ->
  constraints_hold db' = true.
Proof.
  intros H. unfold Sql.insert_courses.
  destruct (existsb _ (courses db)) eqn:E; [discriminate|].
  destruct (negb (foreign_keys db) || _) eqn:Ef; [|discriminate].
  intros [= <- <-]. keep_constraints H Hrefs.
  - now apply distinct_keys_snoc.
  - intros Hfk. destruct (Hrefs Hfk) as [Hci Hr]. rewrite Hfk in Ef. simpl in Ef. split.
    + intros c Hin. apply elem_of_app in Hin as [Hin | Hin]; [now apply Hci|].
      apply list_elem_of_singleton in Hin as ->. exact Ef.
    + intros g Hg. split; [now apply Hr|].
      eapply references_ok_mono; [|apply Hr; eassumption].
      intros s Hin' _. apply elem_of_app. now left.
Qed.

Lemma update_courses_keeps db n i k m db' :
  constraints_hold db = true -> Sql.update_courses db n i k = Ok (m, db') ->
  constraints_hold db' = true.
Proof.
  intros H. unfold Sql.update_courses.
  destruct (foreign_keys db && _ && _) eqn:E; [discriminate|].
  intros [= <- <-].
  apply constraints_hold_spec in H as (Hs & Hi & Hc & Hp & Hrefs).
  apply constraints_hold_spec. simpl.
  rewrite (distinct_keys_update Courses.course_id)
    by (intros r; destruct (Sql.matching _ k r); reflexivity).
  split_and!; auto.
  intros Hfk. destruct (Hrefs Hfk) as [Hci Hr]. rewrite Hfk in E. simpl in E.
  split; [|exact Hr].
  intros c Hin. apply list_elem_of_fmap in Hin as (c0 & -> & Hin).
  destruct (Sql.matching Courses.course_id k c0) eqn:Em; [|now apply Hci].
  simpl. apply andb_false_iff in E as [E | E].
  - now apply negb_false_iff in E.
  - apply negb_false_iff, Nat.eqb_eq in E.
    assert (c0 ∈ Sql.select_courses_where db k) as Hsel
      by (apply list_elem_of_filter; now split).
    destruct (Sql.select_courses_where db k); [inversion Hsel | discriminate].
Qed.

Lemma delete_from_courses_keeps db k m db' :
  constraints_hold db = true -> Sql.delete_from_courses db k = Ok (m, db') ->
  constraints_hold db' = true.
Proof.
  intros H. unfold Sql.delete_from_courses.
  destruct (foreign_keys db && _) eqn:E; [discriminate|].
  intros [= <- <-]. keep_constraints H Hrefs.
  - now apply distinct_keys_filter.
  - intros Hfk. destruct (Hrefs Hfk) as [Hci Hr]. rewrite Hfk in E. simpl in E. split.
    + intros c Hin. apply list_elem_of_filter in Hin as [_ Hin]. now apply Hci.
    + intros g Hg. split; [now apply Hr|].
      eapply references_ok_mono; [|apply Hr; eassumption].
      intros c Hin' Heq. apply list_elem_of_filter. split; [|exact Hin'].
      destruct (Sql.matching Courses.course_id k c) eqn:Em; [|reflexivity].
      exfalso. rewrite <- not_true_iff_false in E. apply E.
      apply existsb_exists. exists c. split.
      * apply list_elem_of_In. apply list_elem_of_filter. now split.
      * apply existsb_matching. exists g. split; [assumption|].
        now rewrite sql_eq_sym.
Qed.

Lemma insert_registrations_keeps db r n db' :
  constraints_hold db = true -> Sql.insert_registrations db r = Ok (n, db') ->
  constraints_hold db' = true.
Proof.
  intros H. unfold Sql.insert_registrations.
  destruct (existsb _ (registrations db)) eqn:E; [discriminate|].
  destruct (negb (foreign_keys db) || _) eqn:Ef; [|discriminate].
  intros [= <- <-]. keep_constraints H Hrefs.
  - now apply distinct_pairs_snoc.
  - intros Hfk. destruct (Hrefs Hfk) as [Hci Hr]. rewrite Hfk in Ef. simpl in Ef.
    apply andb_true_iff in Ef as [Ef1 Ef2]. split; [exact Hci|].
    intros g Hg. apply elem_of_app in Hg as [Hg | Hg]; [now apply Hr|].
    apply list_elem_of_singleton in Hg as ->. now split.
Qed.

(** ** The manager's calls *)

Lemma reraise_integrity_error_id {A} (body : result A * Database) :
  DatabaseManager.reraise_integrity_error body = body.
Proof. destruct body as [[a|[]] conn]; reflexivity. Qed.

Lemma execute_commit_keeps (conn : Database) (statement : result (nat * Database)) :
  constraints_hold conn = true ->
  (forall n db', statement = Ok (n, db') -> constraints_hold db' = true) ->
  constraints_hold (snd (DatabaseManager.execute_commit conn statement)) = true.
Proof.
  intros H Hs. destruct statement as [[n db']|e]; simpl; [|exact H].
  now apply (Hs n).
Qed.

Ltac bound x := destruct (adapt x); simpl; [|discriminate].

Lemma run_keeps (conn : Database) (c : call) :
  constraints_hold conn = true -> constraints_hold (run conn c) = true.
Proof.
  intros H. destruct c as [s | s | i | t | t | i | c | c | i | i j]; simpl;
    unfold DatabaseManager.add_student, DatabaseManager.update_student,
      DatabaseManager.delete_student, DatabaseManager.add_instructor,
      DatabaseManager.update_instructor, DatabaseManager.delete_instructor,
      DatabaseManager.add_course, DatabaseManager.update_course,
      DatabaseManager.delete_course, DatabaseManager.register_student_in_course;
    rewrite ?reraise_integrity_error_id;
    apply execute_commit_keeps; try exact H; intros n db'.
  - bound (student_id s). bound (name s). bound (age s). bound (_email s).
    now apply insert_students_keeps.
  - bound (name s). bound (age s). bound (_email s). bound (student_id s).
    now apply update_students_keeps.
  - bound i. now apply delete_from_students_keeps.
  - bound (instructor_id t). bound (name t). bound (age t). bound (_email t).
    now apply insert_instructors_keeps.
  - bound (name t). bound (age t). bound (_email t). bound (instructor_id t).
    now apply update_instructors_keeps.
  - bound i. now apply delete_from_instructors_keeps.
  - bound (course_id c). bound (course_name c).
    bound (DatabaseManager.instructor_id_of c). now apply insert_courses_keeps.
  - bound (course_name c). bound (DatabaseManager.instructor_id_of c).
    bound (course_id c). now apply update_courses_keeps.
  - bound i. now apply delete_from_courses_keeps.
  - bound i. bound j. now apply insert_registrations_keeps.
Qed.

(** The constraints of the schema hold in every store the manager's calls
    produce. *)
Lemma constraints_invariant (calls : list call) :
  constraints_hold (run_all calls) = true.
Proof.
  unfold run_all. generalize empty_database (eq_refl : constraints_hold empty_database = true).
  induction calls as [|c calls IH]; intros db H; simpl; [exact H|].
  apply IH. now apply run_keeps.
Qed.

Lemma run_foreign_keys (conn : Database) (c : call) :
  foreign_keys (run conn c) = foreign_keys conn.
Proof.
  destruct c as [s | s | i | t | t | i | c | c | i | i j]; simpl;
    unfold DatabaseManager.add_student, DatabaseManager.update_student,
      DatabaseManager.delete_student, DatabaseManager.add_instructor,
      DatabaseManager.update_instructor, DatabaseManager.delete_instructor,
      DatabaseManager.add_course, DatabaseManager.update_course,
      DatabaseManager.delete_course, DatabaseManager.register_student_in_course;
    rewrite ?reraise_integrity_error_id;
    repeat match goal with
           | |- context [adapt ?v] => destruct (adapt v); simpl; [|reflexivity]
           end;
    unfold Sql.insert_students, Sql.update_students, Sql.delete_from_students,
      Sql.insert_instructors, Sql.update_instructors, Sql.delete_from_instructors,
      Sql.insert_courses, Sql.update_courses, Sql.delete_from_courses,
      Sql.insert_registrations;
    repeat match goal with
           | |- context [if ?b then _ else _] => destruct b; simpl
           end;
    reflexivity.
Qed.

(** With the schema script as the specification describes it, every store
    the calls produce is on a connection that enforces the references. *)
Lemma run_all_foreign_keys (calls : list call) : foreign_keys (run_all calls) = true.
Proof.
  unfold run_all. generalize empty_database (eq_refl : foreign_keys empty_database = true).
  induction calls as [|c calls IH]; intros db H; simpl; [exact H|].
  apply IH. now rewrite run_foreign_keys.
Qed.

(** ** The scenarios of the specification *)

Example ann_is_constructed :
  Student.__init__ (VStr "Ann") (VInt 20) (VStr "ann@x.com") (VStr "S1") = Ok ann.
Proof. reflexivity. Qed.

Example ann_is_retrieved :
  DatabaseManager.get_student_by_id
    (snd (DatabaseManager.add_student empty_database ann)) (VStr "S1")
  = Ok (Some (Students.mk (SText "S1") (SText "Ann") (SInt 20) (SText "ann@x.com"))).
Proof. vm_compute. reflexivity. Qed.

Example algebra_has_no_instructor :
  DatabaseManager.get_course_by_id
    (snd (DatabaseManager.add_course empty_database algebra)) (VStr "C1")
  = Ok (Some (Courses.mk (SText "C1") (SText "Algebra") SNull)).
Proof. vm_compute. reflexivity. Qed.

Example float_age_is_rejected :
  Student.__init__ (VStr "Ann") (VFloat (S754_finite false 41 (-1))) (VStr "nope")
    (VStr "S1")
  = Raise (ValidationError age_message).
Proof. reflexivity. Qed.

Example true_is_an_age :
  Person.__init__ (VStr "Ann") (VBool true) (VStr "a@b.c")
  = Ok (mkPerson (VStr "Ann") (VBool true) (VStr "a@b.c")).
Proof. reflexivity. Qed.

Example register_unknown_student :
  DatabaseManager.register_student_in_course example_store (VStr "S7") (VStr "C1")
  = (Raise ReferentialIntegrityError, example_store).
Proof. vm_compute. reflexivity. Qed.

Example bob_alice_display :
  DatabaseManager.get_registrations_for_display (run_all bob_alice_calls)
  = [Sql.mk_display (SText "S2") (SText "Alice") (SText "C2") (SText "Art");
     Sql.mk_display (SText "S2") (SText "Alice") (SText "C1") (SText "Math");
     Sql.mk_display (SText "S1") (SText "Bob") (SText "C2") (SText "Art");
     Sql.mk_display (SText "S1") (SText "Bob") (SText "C1") (SText "Math")].
Proof. vm_compute. reflexivity. Qed.

Example example_display :
  DatabaseManager.get_registrations_for_display example_store
  = [Sql.mk_display (SText "S1") (SText "Ann") (SText "C1") (SText "Algebra");
     Sql.mk_display (SText "S1") (SText "Ann") (SText "C2") (SText "Logic");
     Sql.mk_display (SText "S2") (SText "Bob") (SText "C2") (SText "Logic")].
Proof. vm_compute. reflexivity. Qed.

(** ** Deleting, inserting twice, registering twice *)

Lemma get_student_by_id_stored (conn : Database) (row : Students.row)
    (student_id : value) (key : sqlval) :
  keys_hold conn = true -> row ∈ students conn ->
  adapt student_id = Ok key -> sql_eq (Students.student_id row) key = true ->
  DatabaseManager.get_student_by_id conn student_id = Ok (Some row).
Proof.
  intros H Hin Hk Heq. apply keys_hold_spec in H as (Hs & _).
  unfold DatabaseManager.get_student_by_id, Sql.select_students_where.
  rewrite Hk. simpl.
  now rewrite (select_where_unique Students.student_id _ key row Hs Hin Heq).
Qed.

Lemma get_instructor_by_id_stored (conn : Database) (row : Instructors.row)
    (instructor_id : value) (key : sqlval) :
  keys_hold conn = true -> row ∈ instructors conn ->
  adapt instructor_id = Ok key -> sql_eq (Instructors.instructor_id row) key = true ->
  DatabaseManager.get_instructor_by_id conn instructor_id = Ok (Some row).
Proof.
  intros H Hin Hk Heq. apply keys_hold_spec in H as (_ & Hi & _).
  unfold DatabaseManager.get_instructor_by_id, Sql.select_instructors_where.
  rewrite Hk. simpl.
  now rewrite (select_where_unique Instructors.instructor_id _ key row Hi Hin Heq).
Qed.

Lemma get_course_by_id_stored (conn : Database) (row : Courses.row)
    (course_id : value) (key : sqlval) :
  keys_hold conn = true -> row ∈ courses conn ->
  adapt course_id = Ok key -> sql_eq (Courses.course_id row) key = true ->
  DatabaseManager.get_course_by_id conn course_id = Ok (Some row).
Proof.
  intros H Hin Hk Heq. apply keys_hold_spec in H as (_ & _ & Hc & _).
  unfold DatabaseManager.get_course_by_id, Sql.select_courses_where.
  rewrite Hk. simpl.
  now rewrite (select_where_unique Courses.course_id _ key row Hc Hin Heq).
Qed.

(** C1: on a connection that enforces the references of the schema, when
    a stored student has a row in registrations, delete_student on that
    student's id fails with ReferentialIntegrityError (the IntegrityError
    of the violated reference); afterwards the store is as it was:
    get_student_by_id still returns the student's row and the registration
    is still there, nothing having been removed by cascade.  The store is
    any one whose keys are distinct, as the engine keeps them. *)
Theorem delete_registered_student_fails (conn : Database) (row : Students.row)
    (reg : Registrations.row) (student_id : value) :
  foreign_keys conn = true ->
  keys_hold conn = true ->
  row ∈ students conn ->
  reg ∈ registrations conn ->
  sql_eq (Registrations.student_id reg) (Students.student_id row) = true ->
  adapt student_id = Ok (Students.student_id row) ->
  DatabaseManager.delete_student conn student_id = (Raise ReferentialIntegrityError, conn)
  /\ DatabaseManager.get_student_by_id
       (snd (DatabaseManager.delete_student conn student_id)) student_id = Ok (Some row)
  /\ reg ∈ registrations (snd (DatabaseManager.delete_student conn student_id)).
Proof.
  intros Hfk H Hin Hreg Href Hk.
  assert (Hself : sql_eq (Students.student_id row) (Students.student_id row) = true).
  { apply sql_eq_trans with (Registrations.student_id reg); [|exact Href].
    now rewrite sql_eq_sym. }
  assert (Hdel : DatabaseManager.delete_student conn student_id
                 = (Raise ReferentialIntegrityError, conn)).
  { unfold DatabaseManager.delete_student, Sql.delete_from_students. rewrite Hk, Hfk. simpl.
    replace (existsb _ (Sql.select_students_where conn (Students.student_id row)))
      with true; [reflexivity|].
    symmetry. apply existsb_exists. exists row. split.
    - apply list_elem_of_In. apply list_elem_of_filter. now split.
    - apply existsb_matching. now exists reg. }
  rewrite Hdel. simpl. repeat split; [|exact Hreg].
  now apply get_student_by_id_stored with (Students.student_id row).
Qed.

Lemma delete_registered_student_fails_witness :
  DatabaseManager.delete_student example_store (VStr "S1")
    = (Raise ReferentialIntegrityError, example_store)
  /\ DatabaseManager.get_student_by_id
       (snd (DatabaseManager.delete_student example_store (VStr "S1"))) (VStr "S1")
     = Ok (Some ann_row)
  /\ Registrations.mk (SText "S1") (SText "C1")
       ∈ registrations (snd (DatabaseManager.delete_student example_store (VStr "S1"))).
Proof.
  apply (delete_registered_student_fails example_store ann_row
           (Registrations.mk (SText "S1") (SText "C1")) (VStr "S1")).
  - reflexivity.
  - vm_compute. reflexivity.
  - apply list_elem_of_In. vm_compute. tauto.
  - apply list_elem_of_In. vm_compute. tauto.
  - vm_compute. reflexivity.
  - reflexivity.
Defined.

(** What the same call does on a connection left at sqlite3's default,
    where the references are declared but not enforced: the student's row
    goes and its registrations stay behind. *)
Lemma delete_student_unenforced (conn : Database) (student_id : value) (key : sqlval) :
  foreign_keys conn = false ->
  adapt student_id = Ok key ->
  exists conn',
    DatabaseManager.delete_student conn student_id = (Ok (), conn')
    /\ registrations conn' = registrations conn
    /\ DatabaseManager.get_student_by_id conn' student_id = Ok None.
Proof.
  intros Hfk Hk. eexists. split; [|split].
  - unfold DatabaseManager.delete_student, Sql.delete_from_students.
    rewrite Hk, Hfk. reflexivity.
  - reflexivity.
  - unfold DatabaseManager.get_student_by_id, Sql.select_students_where. rewrite Hk.
    simpl. replace (filter _ (filter _ (students conn))) with (@nil Students.row);
      [reflexivity|].
    symmetry. induction (students conn) as [|x l IH]; [reflexivity|].
    destruct (Sql.matching Students.student_id key x) eqn:E.
    + rewrite (filter_cons_False _ x l); [exact IH | congruence].
    + rewrite (filter_cons_True _ x l) by exact E.
      rewrite filter_cons_False; [exact IH | congruence].
Qed.

Lemma example_store_reachable : example_store = run_all example_calls.
Proof. vm_compute. reflexivity. Qed.

(** C2: when a row is stored under a primary key, adding an entity whose
    key is that key fails with DuplicateKeyError (the IntegrityError of
    the key constraint), for students, instructors and courses alike; the
    store is left as it was and get_by_id on the key returns the first
    row.  The entity is any one whose fields sqlite3 can bind, and two keys
    are the same when the engine's comparison says so. *)
Theorem duplicate_key_rejected (conn : Database) :
  keys_hold conn = true ->
  (forall (row : Students.row) (student : Student) (k n a e : sqlval),
     row ∈ students conn ->
     adapt (student_id student) = Ok k -> adapt (name student) = Ok n ->
     adapt (age student) = Ok a -> adapt (_email student) = Ok e ->
     sql_eq (Students.student_id row) k = true ->
     DatabaseManager.add_student conn student
       = (Raise (DuplicateKeyError "students.student_id"), conn)
     /\ DatabaseManager.get_student_by_id
          (snd (DatabaseManager.add_student conn student)) (student_id student)
        = Ok (Some row))
  /\ (forall (row : Instructors.row) (instructor : Instructor) (k n a e : sqlval),
     row ∈ instructors conn ->
     adapt (instructor_id instructor) = Ok k -> adapt (name instructor) = Ok n ->
     adapt (age instructor) = Ok a -> adapt (_email instructor) = Ok e ->
     sql_eq (Instructors.instructor_id row) k = true ->
     DatabaseManager.add_instructor conn instructor
       = (Raise (DuplicateKeyError "instructors.instructor_id"), conn)
     /\ DatabaseManager.get_instructor_by_id
          (snd (DatabaseManager.add_instructor conn instructor)) (instructor_id instructor)
        = Ok (Some row))
  /\ (forall (row : Courses.row) (course : Course) (k n i : sqlval),
     row ∈ courses conn ->
     adapt (course_id course) = Ok k -> adapt (course_name course) = Ok n ->
     adapt (DatabaseManager.instructor_id_of course) = Ok i ->
     sql_eq (Courses.course_id row) k = true ->
     DatabaseManager.add_course conn course
       = (Raise (DuplicateKeyError "courses.course_id"), conn)
     /\ DatabaseManager.get_course_by_id
          (snd (DatabaseManager.add_course conn course)) (course_id course)
        = Ok (Some row)).
Proof.
  intros H. split; [|split].
  - intros row student k n a e Hin Hk Hn Ha He Heq.
    assert (Hadd : DatabaseManager.add_student conn student
                   = (Raise (DuplicateKeyError "students.student_id"), conn)).
    { unfold DatabaseManager.add_student, Sql.insert_students.
      rewrite Hk, Hn, Ha, He. simpl.
      replace (existsb (Sql.matching Students.student_id k) (students conn)) with true;
        [reflexivity|].
      symmetry. apply existsb_matching. now exists row. }
    rewrite Hadd. split; [reflexivity|]. simpl.
    now apply get_student_by_id_stored with k.
  - intros row instructor k n a e Hin Hk Hn Ha He Heq.
    assert (Hadd : DatabaseManager.add_instructor conn instructor
                   = (Raise (DuplicateKeyError "instructors.instructor_id"), conn)).
    { unfold DatabaseManager.add_instructor, Sql.insert_instructors.
      rewrite Hk, Hn, Ha, He. simpl.
      replace (existsb (Sql.matching Instructors.instructor_id k) (instructors conn))
        with true; [reflexivity|].
      symmetry. apply existsb_matching. now exists row. }
    rewrite Hadd. split; [reflexivity|]. simpl.
    now apply get_instructor_by_id_stored with k.
  - intros row course k n i Hin Hk Hn Hi Heq.
    assert (Hadd : DatabaseManager.add_course conn course
                   = (Raise (DuplicateKeyError "courses.course_id"), conn)).
    { unfold DatabaseManager.add_course, Sql.insert_courses.
      rewrite Hk, Hn, Hi. simpl.
      replace (existsb (Sql.matching Courses.course_id k) (courses conn)) with true;
        [reflexivity|].
      symmetry. apply existsb_matching. now exists row. }
    rewrite Hadd. split; [reflexivity|]. simpl.
    now apply get_course_by_id_stored with k.
Qed.

Lemma duplicate_key_rejected_witness :
  DatabaseManager.add_student example_store
    (mkStudent (mkPerson (VStr "Anna") (VInt 31) (VStr "anna@y.org")) (VStr "S1") [])
  = (Raise (DuplicateKeyError "students.student_id"), example_store)
  /\ DatabaseManager.get_student_by_id
       (snd (DatabaseManager.add_student example_store
          (mkStudent (mkPerson (VStr "Anna") (VInt 31) (VStr "anna@y.org")) (VStr "S1") [])))
       (VStr "S1")
     = Ok (Some ann_row).
Proof.
  assert (Hc : keys_hold example_store = true) by (vm_compute; reflexivity).
  destruct (duplicate_key_rejected example_store Hc) as (Hstudents & _).
  apply (Hstudents ann_row
           (mkStudent (mkPerson (VStr "Anna") (VInt 31) (VStr "anna@y.org")) (VStr "S1") [])
           (SText "S1") (SText "Anna") (SInt 31) (SText "anna@y.org")).
  - apply list_elem_of_In. vm_compute. tauto.
  - reflexivity.
  - reflexivity.
  - reflexivity.
  - reflexivity.
  - vm_compute. reflexivity.
Defined.

(** C3: when a (student_id, course_id) pair is in registrations,
    registering the same pair again fails with DuplicateRegistrationError
    (the IntegrityError of the pair constraint), and afterwards exactly
    one row of registrations holds that pair. *)
Theorem duplicate_registration_rejected (conn : Database) (reg : Registrations.row)
    (student_id course_id : value) (s c : sqlval) :
  keys_hold conn = true ->
  reg ∈ registrations conn ->
  adapt student_id = Ok s -> adapt course_id = Ok c ->
  sql_eq (Registrations.student_id reg) s = true ->
  sql_eq (Registrations.course_id reg) c = true ->
  DatabaseManager.register_student_in_course conn student_id course_id
    = (Raise DuplicateRegistrationError, conn)
  /\ filter (fun r => Sql.same_pair (Registrations.mk s c) r = true)
       (registrations
          (snd (DatabaseManager.register_student_in_course conn student_id course_id)))
     = [reg].
Proof.
  intros H Hin Hs Hc Heqs Heqc.
  assert (Hsame : Sql.same_pair (Registrations.mk s c) reg = true).
  { unfold Sql.same_pair. simpl. now rewrite Heqs, Heqc. }
  assert (Hreg : DatabaseManager.register_student_in_course conn student_id course_id
                 = (Raise DuplicateRegistrationError, conn)).
  { unfold DatabaseManager.register_student_in_course, Sql.insert_registrations.
    rewrite Hs, Hc. simpl.
    replace (existsb (Sql.same_pair (Registrations.mk s c)) (registrations conn))
      with true; [reflexivity|].
    symmetry. apply existsb_exists. exists reg. split; [now apply list_elem_of_In|].
    exact Hsame. }
  rewrite Hreg. split; [reflexivity|]. simpl.
  apply keys_hold_spec in H as (_ & _ & _ & Hp).
  now apply select_pair_unique.
Qed.

Lemma duplicate_registration_rejected_witness :
  DatabaseManager.register_student_in_course example_store (VStr "S1") (VStr "C2")
    = (Raise DuplicateRegistrationError, example_store)
  /\ filter (fun r => Sql.same_pair (Registrations.mk (SText "S1") (SText "C2")) r = true)
       (registrations
          (snd (DatabaseManager.register_student_in_course example_store
                  (VStr "S1") (VStr "C2"))))
     = [Registrations.mk (SText "S1") (SText "C2")].
Proof.
  apply (duplicate_registration_rejected example_store
           (Registrations.mk (SText "S1") (SText "C2")) (VStr "S1") (VStr "C2")
           (SText "S1") (SText "C2")).
  - vm_compute. reflexivity.
  - apply list_elem_of_In. vm_compute. tauto.
  - reflexivity.
  - reflexivity.
  - vm_compute. reflexivity.
  - vm_compute. reflexivity.
Defined.

(** ** Updating an identifier that is not stored *)

(** C8: when no stored row has the identifier of the entity, update
    (update_student, update_instructor, update_course) raises nothing, its
    statement changes zero rows, and the store, hence what get_all
    returns, is as before.  The entity is any one whose fields sqlite3 can
    bind. *)
Theorem update_unknown_id_is_noop (conn : Database) :
  (forall (student : Student) (n a e k : sqlval),
     adapt (name student) = Ok n -> adapt (age student) = Ok a ->
     adapt (_email student) = Ok e -> adapt (student_id student) = Ok k ->
     (forall row, row ∈ students conn -> sql_eq (Students.student_id row) k = false) ->
     DatabaseManager.update_student conn student = (Ok (), conn)
     /\ Sql.update_students conn n a e k = Ok (0%nat, conn)
     /\ DatabaseManager.get_all_students
          (snd (DatabaseManager.update_student conn student))
        = DatabaseManager.get_all_students conn)
  /\ (forall (instructor : Instructor) (n a e k : sqlval),
     adapt (name instructor) = Ok n -> adapt (age instructor) = Ok a ->
     adapt (_email instructor) = Ok e -> adapt (instructor_id instructor) = Ok k ->
     (forall row, row ∈ instructors conn ->
                  sql_eq (Instructors.instructor_id row) k = false) ->
     DatabaseManager.update_instructor conn instructor = (Ok (), conn)
     /\ Sql.update_instructors conn n a e k = Ok (0%nat, conn)
     /\ DatabaseManager.get_all_instructors
          (snd (DatabaseManager.update_instructor conn instructor))
        = DatabaseManager.get_all_instructors conn)
  /\ (forall (course : Course) (n i k : sqlval),
     adapt (course_name course) = Ok n ->
     adapt (DatabaseManager.instructor_id_of course) = Ok i ->
     adapt (course_id course) = Ok k ->
     (forall row, row ∈ courses conn -> sql_eq (Courses.course_id row) k = false) ->
     DatabaseManager.update_course conn course = (Ok (), conn)
     /\ Sql.update_courses conn n i k = Ok (0%nat, conn)
     /\ DatabaseManager.get_all_courses
          (snd (DatabaseManager.update_course conn course))
        = DatabaseManager.get_all_courses conn).
Proof.
  destruct conn as [fk ss ii cc rr]. split; [|split].
  - intros student n a e k Hn Ha He Hk Hno. simpl in Hno.
    assert (Hstmt : Sql.update_students (mkDatabase fk ss ii cc rr) n a e k
                    = Ok (0%nat, mkDatabase fk ss ii cc rr)).
    { unfold Sql.update_students, Sql.select_students_where, with_students. simpl.
      rewrite (select_where_empty Students.student_id ss k Hno).
      now rewrite (update_where_none Students.student_id _ ss k Hno). }
    unfold DatabaseManager.update_student. rewrite Hn, Ha, He, Hk. cbn [mbind result_bind].
    rewrite Hstmt. simpl. repeat split; reflexivity.
  - intros instructor n a e k Hn Ha He Hk Hno. simpl in Hno.
    assert (Hstmt : Sql.update_instructors (mkDatabase fk ss ii cc rr) n a e k
                    = Ok (0%nat, mkDatabase fk ss ii cc rr)).
    { unfold Sql.update_instructors, Sql.select_instructors_where, with_instructors. simpl.
      rewrite (select_where_empty Instructors.instructor_id ii k Hno).
      now rewrite (update_where_none Instructors.instructor_id _ ii k Hno). }
    unfold DatabaseManager.update_instructor. rewrite Hn, Ha, He, Hk. cbn [mbind result_bind].
    rewrite Hstmt. simpl. repeat split; reflexivity.
  - intros course n i k Hn Hi Hk Hno. simpl in Hno.
    assert (Hstmt : Sql.update_courses (mkDatabase fk ss ii cc rr) n i k
                    = Ok (0%nat, mkDatabase fk ss ii cc rr)).
    { unfold Sql.update_courses, Sql.select_courses_where, with_courses. simpl.
      rewrite (select_where_empty Courses.course_id cc k Hno). simpl.
      rewrite andb_false_r.
      now rewrite (update_where_none Courses.course_id _ cc k Hno). }
    unfold DatabaseManager.update_course. rewrite Hn, Hi, Hk. cbn [mbind result_bind].
    rewrite Hstmt. simpl. repeat split; reflexivity.
Qed.

Lemma update_unknown_id_is_noop_witness :
  DatabaseManager.update_student example_store
    (mkStudent (mkPerson (VStr "Zoe") (VInt 19) (VStr "zoe@x.com")) (VStr "S9") [])
  = (Ok (), example_store)
  /\ Sql.update_students example_store (SText "Zoe") (SInt 19) (SText "zoe@x.com")
       (SText "S9") = Ok (0%nat, example_store)
  /\ DatabaseManager.get_all_students
       (snd (DatabaseManager.update_student example_store
          (mkStudent (mkPerson (VStr "Zoe") (VInt 19) (VStr "zoe@x.com")) (VStr "S9") [])))
     = DatabaseManager.get_all_students example_store.
Proof.
  destruct (update_unknown_id_is_noop example_store) as (Hstudents & _).
  apply (Hstudents
           (mkStudent (mkPerson (VStr "Zoe") (VInt 19) (VStr "zoe@x.com")) (VStr "S9") [])
           (SText "Zoe") (SInt 19) (SText "zoe@x.com") (SText "S9")).
  - reflexivity.
  - reflexivity.
  - reflexivity.
  - reflexivity.
  - intros row Hin. apply list_elem_of_In in Hin. vm_compute in Hin.
    destruct Hin as [<- | [<- | []]]; vm_compute; reflexivity.
Defined.

(** ** The order of the display query *)

Lemma ascii_compare_lt_trans (a b c : ascii) :
  Ascii.compare a b = Lt -> Ascii.compare b c = Lt -> Ascii.compare a c = Lt.
Proof.
  unfold Ascii.compare. rewrite !N.compare_lt_iff. apply N.lt_trans.
Qed.

Lemma string_compare_lt_trans (s t u : string) :
  String.compare s t = Lt -> String.compare t u = Lt -> String.compare s u = Lt.
Proof.
  revert t u. induction s as [|a s IH]; intros [|b t] [|c u]; simpl;
    try discriminate; auto.
  destruct (Ascii.compare a b) eqn:Eab; try discriminate.
  - apply Ascii.compare_eq_iff in Eab as ->.
    destruct (Ascii.compare b c); try discriminate; auto. apply IH.
  - intros _. destruct (Ascii.compare b c) eqn:Ebc; try discriminate.
    + apply Ascii.compare_eq_iff in Ebc as <-. now rewrite Eab.
    + now rewrite (ascii_compare_lt_trans a b c Eab Ebc).
Qed.

Lemma number_compare_antisym (x y : number) :
  number_compare x y = CompOpp (number_compare y x).
Proof.
  destruct x, y; simpl; try reflexivity.
  unfold Qccompare. symmetry. apply Qcompare_antisym.
Qed.

Lemma number_compare_lt_trans (x y z : number) :
  number_compare x y = Lt -> number_compare y z = Lt -> number_compare x z = Lt.
Proof.
  destruct x, y, z; simpl; try discriminate; auto.
  rewrite <- !Qclt_alt. apply Qclt_trans.
Qed.

Lemma sortkey_compare_antisym (a b : sortkey) :
  sortkey_compare a b = CompOpp (sortkey_compare b a).
Proof.
  destruct a, b; simpl; try reflexivity.
  - apply number_compare_antisym.
  - apply String.compare_antisym.
Qed.

Lemma sortkey_compare_lt_trans (a b c : sortkey) :
  sortkey_compare a b = Lt -> sortkey_compare b c = Lt -> sortkey_compare a c = Lt.
Proof.
  destruct a, b, c; simpl; try discriminate; auto.
  - apply number_compare_lt_trans.
  - apply string_compare_lt_trans.
Qed.

Lemma sortkey_compare_gt (a b : sortkey) :
  sortkey_compare a b = Gt <-> sortkey_compare b a = Lt.
Proof.
  rewrite (sortkey_compare_antisym a b).
  destruct (sortkey_compare b a); simpl; split; congruence.
Qed.

(** Sorted by the first column, and within one value of it by the second. *)
Lemma key_le_spec (a b : sortkey * sortkey) :
  Sql.key_le a b <->
  sortkey_compare (fst a) (fst b) = Lt
  \/ (fst a = fst b
      /\ (sortkey_compare (snd a) (snd b) = Lt \/ snd a = snd b)).
Proof.
  unfold Sql.key_le, Sql.key_leb.
  destruct (sortkey_compare (fst a) (fst b)) eqn:E1.
  - apply sortkey_compare_eq in E1.
    destruct (sortkey_compare (snd a) (snd b)) eqn:E2.
    + apply sortkey_compare_eq in E2. tauto.
    + tauto.
    + split; [discriminate|]. intros [H | (_ & [H | H])]; try discriminate.
      apply sortkey_compare_eq in H. congruence.
  - tauto.
  - split; [discriminate|]. intros [H | (H & _)]; [discriminate|].
    apply sortkey_compare_eq in H. congruence.
Qed.

#[local] Instance key_le_total : Total Sql.key_le.
Proof.
  intros [a1 a2] [b1 b2]. rewrite !key_le_spec. simpl.
  destruct (sortkey_compare a1 b1) eqn:E1.
  - apply sortkey_compare_eq in E1 as ->.
    destruct (sortkey_compare a2 b2) eqn:E2.
    + apply sortkey_compare_eq in E2 as ->. left. right. auto.
    + left. right. auto.
    + apply sortkey_compare_gt in E2. right. right. auto.
  - left. now left.
  - apply sortkey_compare_gt in E1. right. now left.
Qed.

#[local] Instance key_le_trans : Transitive Sql.key_le.
Proof.
  intros [a1 a2] [b1 b2] [c1 c2]. rewrite !key_le_spec. simpl.
  intros [H1 | (-> & H1)] [H2 | (-> & H2)].
  - left. eapply sortkey_compare_lt_trans; eassumption.
  - now left.
  - now left.
  - right. split; [reflexivity|].
    destruct H1 as [H1 | ->], H2 as [H2 | ->]; auto.
    left. eapply sortkey_compare_lt_trans; eassumption.
Qed.

#[local] Instance key_le_antisym : AntiSymm (=) Sql.key_le.
Proof.
  assert (Hirr : forall a b, sortkey_compare a b = Lt -> sortkey_compare b a = Lt -> False).
  { intros a b H1 H2. apply sortkey_compare_gt in H2. congruence. }
  assert (Hne : forall a, sortkey_compare a a = Lt -> False).
  { intros a H. now apply (Hirr a a). }
  intros [a1 a2] [b1 b2]. rewrite !key_le_spec. simpl.
  intros [H1 | (-> & H1)] [H2 | (E & H2)].
  - destruct (Hirr _ _ H1 H2).
  - subst. destruct (Hne _ H1).
  - destruct (Hne _ H2).
  - f_equal. destruct H1 as [H1 | ->], H2 as [H2 | H2]; auto.
    destruct (Hirr _ _ H1 H2).
Qed.

#[local] Instance display_le_total : Total Sql.display_le.
Proof. intros d d'. apply key_le_total. Qed.

#[local] Instance display_le_trans : Transitive Sql.display_le.
Proof. intros d d' d''. apply key_le_trans. Qed.

Lemma bind_Permutation_ext {A B} (f g : A -> list B) (l l' : list A) :
  (forall x, f x ≡ₚ g x) -> l ≡ₚ l' -> l ≫= f ≡ₚ l' ≫= g.
Proof.
  intros Hfg Hl. rewrite <- Hl. clear Hl l'.
  induction l as [|x l IH]; [reflexivity|].
  rewrite !bind_cons. now rewrite IH, Hfg.
Qed.

Lemma joined_same_rows (db db' : Database) :
  same_rows db db' -> Sql.joined db ≡ₚ Sql.joined db'.
Proof.
  intros (Hs & _ & Hc & Hr). unfold Sql.joined.
  apply bind_Permutation_ext; [|exact Hr].
  intros r. apply bind_Permutation_ext; [|now rewrite Hs].
  intros s. apply bind_Permutation_ext; [|now rewrite Hc].
  reflexivity.
Qed.

Lemma joined_spec (db : Database) (d : Sql.display_row) :
  d ∈ Sql.joined db <->
  exists r s c, r ∈ registrations db /\ s ∈ students db /\ c ∈ courses db
    /\ sql_eq (Registrations.student_id r) (Students.student_id s) = true
    /\ sql_eq (Registrations.course_id r) (Courses.course_id c) = true
    /\ d = Sql.mk_display (Students.student_id s) (Students.name s)
             (Courses.course_id c) (Courses.course_name c).
Proof.
  unfold Sql.joined. rewrite list_elem_of_bind. split.
  - intros (r & Hd & Hr). apply list_elem_of_bind in Hd as (s & Hd & Hs).
    apply list_elem_of_bind in Hd as (c & Hd & Hc).
    apply list_elem_of_filter in Hs as [Es Hs]. apply list_elem_of_filter in Hc as [Ec Hc].
    apply list_elem_of_singleton in Hd. exists r, s, c. auto 10.
  - intros (r & s & c & Hr & Hs & Hc & Es & Ec & ->). exists r. split; [|exact Hr].
    apply list_elem_of_bind. exists s. split; [|apply list_elem_of_filter; auto].
    apply list_elem_of_bind. exists c. split; [|apply list_elem_of_filter; auto].
    now apply list_elem_of_singleton.
Qed.

Lemma Permutation_same_keys {A B} (f : A -> B) (l l' : list A) :
  l ≡ₚ l' -> f <$> l = f <$> l' -> NoDup (f <$> l) -> l = l'.
Proof.
  revert l'. induction l as [|x l IH]; intros [|x' l'] Hp Hf Hn;
    try discriminate; [reflexivity|].
  simpl in Hf. injection Hf as Hx Hf.
  rewrite fmap_cons in Hn. apply NoDup_cons in Hn as [Hnx Hn].
  assert (x' = x) as ->.
  { assert (x' ∈ x :: l) as Hin by (rewrite Hp; left).
    apply elem_of_cons in Hin as [-> | Hin]; [reflexivity|].
    exfalso. apply Hnx. rewrite Hx. apply list_elem_of_fmap. now exists x'. }
  f_equal. apply IH; auto. now apply Permutation_cons_inv in Hp.
Qed.

Lemma select_display_sorted (db : Database) :
  StronglySorted Sql.display_le (Sql.select_display db).
Proof. unfold Sql.select_display. apply StronglySorted_merge_sort; apply _. Qed.

Lemma select_display_keys (db db' : Database) :
  same_rows db db' ->
  Sql.display_key <$> Sql.select_display db' = Sql.display_key <$> Sql.select_display db.
Proof.
  intros Hsame. apply (StronglySorted_unique Sql.key_le).
  - apply StronglySorted_fmap with Sql.display_le; [auto|]. apply select_display_sorted.
  - apply StronglySorted_fmap with Sql.display_le; [auto|]. apply select_display_sorted.
  - unfold Sql.select_display. rewrite !merge_sort_Permutation.
    now rewrite (joined_same_rows db db' Hsame).
Qed.

(** C7: get_registrations_for_display returns the join of registrations
    with students and courses, one row (student_id, student name,
    course_id, course name) for each registration and the student and the
    course its identifiers match; the rows are sorted by student name and,
    between equal student names, by course name.  The order is determined
    by the rows stored: two stores holding the same rows give, position by
    position, the same names and course names, and the same list when no two
    joined rows share both. *)
Theorem registrations_display_sorted (conn : Database) :
  (forall d, d ∈ DatabaseManager.get_registrations_for_display conn <->
     exists r s c, r ∈ registrations conn /\ s ∈ students conn /\ c ∈ courses conn
       /\ sql_eq (Registrations.student_id r) (Students.student_id s) = true
       /\ sql_eq (Registrations.course_id r) (Courses.course_id c) = true
       /\ d = Sql.mk_display (Students.student_id s) (Students.name s)
                (Courses.course_id c) (Courses.course_name c))
  /\ DatabaseManager.get_registrations_for_display conn ≡ₚ Sql.joined conn
  /\ StronglySorted name_then_course (DatabaseManager.get_registrations_for_display conn)
  /\ (forall conn', same_rows conn conn' ->
        Sql.display_key <$> DatabaseManager.get_registrations_for_display conn'
        = Sql.display_key <$> DatabaseManager.get_registrations_for_display conn)
  /\ (forall conn', same_rows conn conn' ->
        NoDup (Sql.display_key <$> Sql.joined conn) ->
        DatabaseManager.get_registrations_for_display conn'
        = DatabaseManager.get_registrations_for_display conn).
Proof.
  unfold DatabaseManager.get_registrations_for_display.
  assert (Hperm : Sql.select_display conn ≡ₚ Sql.joined conn)
    by apply merge_sort_Permutation.
  split; [|split; [|split; [|split]]].
  - intros d. rewrite Hperm. apply joined_spec.
  - exact Hperm.
  - rewrite <- (list_fmap_id (Sql.select_display conn)).
    apply StronglySorted_fmap with Sql.display_le; [|apply select_display_sorted].
    intros d d' H. apply key_le_spec in H. exact H.
  - apply select_display_keys.
  - intros conn' Hsame Hn. symmetry.
    apply (Permutation_same_keys Sql.display_key).
    + unfold Sql.select_display. rewrite !merge_sort_Permutation.
      now apply joined_same_rows.
    + symmetry. now apply select_display_keys.
    + now rewrite Hperm.
Qed.

Lemma registrations_display_sorted_witness :
  DatabaseManager.get_registrations_for_display example_store_reversed
  = [Sql.mk_display (SText "S1") (SText "Ann") (SText "C1") (SText "Algebra");
     Sql.mk_display (SText "S1") (SText "Ann") (SText "C2") (SText "Logic");
     Sql.mk_display (SText "S2") (SText "Bob") (SText "C2") (SText "Logic")].
Proof.
  destruct (registrations_display_sorted example_store) as (_ & _ & _ & _ & Hsame).
  rewrite (Hsame example_store_reversed).
  - vm_compute. reflexivity.
  - unfold same_rows, example_store_reversed. simpl.
    repeat split; symmetry; apply reverse_Permutation.
  - vm_compute. repeat constructor; intros H; inversion H; subst;
      repeat match goal with
             | H : _ ∈ _ :: _ |- _ => inversion H; subst; clear H
             | H : _ ∈ [] |- _ => inversion H
             end.
Defined.

(** * Further properties of the data-access layer *)

Local Open Scope list_scope.

(** ** One row among the others *)

Section one_row.
Context {A : Type} (column : A -> sqlval).

Lemma others_do_not_match (l1 l2 : list A) (row : A) (key : sqlval) :
  distinct_keys (map column (l1 ++ row :: l2)) = true ->
  sql_eq (column row) key = true ->
  forall r, r ∈ l1 ++ l2 -> sql_eq (column r) key = false.
Proof.
  intros Hd Heq r Hr.
  assert (Hrow : row ∈ l1 ++ row :: l2) by (apply elem_of_app; right; left).
  pose proof (select_where_unique column _ key row Hd Hrow Heq) as Hsel.
  rewrite filter_app, filter_cons_True in Hsel by exact Heq.
  destruct (filter _ l1) as [|x f1] eqn:E1.
  - simpl in Hsel. injection Hsel as E2.
    destruct (sql_eq (column r) key) eqn:E; [|reflexivity]. exfalso.
    apply elem_of_app in Hr as [Hr | Hr].
    + assert (r ∈ filter (fun r => Sql.matching column key r = true) l1) as Hin
        by (apply list_elem_of_filter; split; assumption).
      rewrite E1 in Hin. inversion Hin.
    + assert (r ∈ filter (fun r => Sql.matching column key r = true) l2) as Hin
        by (apply list_elem_of_filter; split; assumption).
      rewrite E2 in Hin. inversion Hin.
  - exfalso. simpl in Hsel. injection Hsel as _ Hlen.
    apply (f_equal length) in Hlen. rewrite length_app in Hlen. simpl in Hlen. lia.
Qed.

Lemma keep_where_none (l : list A) (key : sqlval) :
  (forall r, r ∈ l -> sql_eq (column r) key = false) ->
  filter (fun r => Sql.matching column key r = false) l = l.
Proof.
  unfold Sql.matching. induction l as [|x l IH]; intros H; [reflexivity|].
  rewrite filter_cons_True by (apply H; left). f_equal. apply IH.
  intros r Hr. apply H. now right.
Qed.

Lemma delete_where_unique (l1 l2 : list A) (row : A) (key : sqlval) :
  distinct_keys (map column (l1 ++ row :: l2)) = true ->
  sql_eq (column row) key = true ->
  filter (fun r => Sql.matching column key r = false) (l1 ++ row :: l2) = l1 ++ l2.
Proof.
  intros Hd Heq. pose proof (others_do_not_match l1 l2 row key Hd Heq) as Hno.
  rewrite filter_app, filter_cons_False
    by (unfold Sql.matching; rewrite Heq; discriminate).
  rewrite !keep_where_none; [reflexivity | |];
    intros r Hr; apply Hno; apply elem_of_app; auto.
Qed.

Lemma update_where_unique (f : A -> A) (l1 l2 : list A) (row : A) (key : sqlval) :
  distinct_keys (map column (l1 ++ row :: l2)) = true ->
  sql_eq (column row) key = true ->
  map (fun r => if Sql.matching column key r then f r else r) (l1 ++ row :: l2)
  = l1 ++ f row :: l2.
Proof.
  intros Hd Heq. pose proof (others_do_not_match l1 l2 row key Hd Heq) as Hno.
  rewrite map_app. simpl. unfold Sql.matching at 2. rewrite Heq.
  rewrite !update_where_none; [reflexivity | |];
    intros r Hr; apply Hno; apply elem_of_app; auto.
Qed.

Lemma select_where_snoc (l : list A) (row : A) (key : sqlval) :
  (forall r, r ∈ l -> sql_eq (column r) key = false) ->
  sql_eq (column row) key = true ->
  filter (fun r => Sql.matching column key r = true) (l ++ [row]) = [row].
Proof.
  intros Hno Heq. rewrite filter_app, (select_where_empty column l key Hno).
  simpl. now rewrite filter_cons_True by exact Heq.
Qed.

Lemma existsb_matching_false (l : list A) (key : sqlval) :
  (forall r, r ∈ l -> sql_eq (column r) key = false) ->
  existsb (Sql.matching column key) l = false.
Proof.
  intros Hno. destruct (existsb _ l) eqn:E; [|reflexivity].
  apply existsb_matching in E as (r & Hr & Heq). rewrite (Hno r Hr) in Heq. discriminate.
Qed.

Lemma select_where_length (l : list A) (key : sqlval) :
  distinct_keys (map column l) = true ->
  (length (filter (fun r => Sql.matching column key r = true) l) <= 1)%nat.
Proof.
  intros Hd. destruct (filter _ l) as [|row rest] eqn:E; [simpl; lia|].
  assert (row ∈ filter (fun r => Sql.matching column key r = true) l) as Hin
    by (rewrite E; left).
  apply list_elem_of_filter in Hin as [Heq Hin].
  rewrite (select_where_unique column l key row Hd Hin Heq) in E.
  injection E as <-. simpl. lia.
Qed.

End one_row.

(** ** Adding, then fetching *)

(** X1: adding a student (an instructor) whose identifier is not NULL and
    matches no stored row succeeds: the row of its bound fields goes to the
    end of the table, the other tables are untouched, and get_by_id on the
    identifier returns that row. *)
Theorem add_then_get (conn : Database) :
  (forall (student : Student) (k n a e : sqlval),
     adapt (student_id student) = Ok k -> adapt (name student) = Ok n ->
     adapt (age student) = Ok a -> adapt (_email student) = Ok e ->
     is_null k = false ->
     (forall row, row ∈ students conn -> sql_eq (Students.student_id row) k = false) ->
     DatabaseManager.add_student conn student
       = (Ok (), with_students conn (students conn ++ [Students.mk k n a e]))
     /\ DatabaseManager.get_student_by_id
          (snd (DatabaseManager.add_student conn student)) (student_id student)
        = Ok (Some (Students.mk k n a e)))
  /\ (forall (instructor : Instructor) (k n a e : sqlval),
     adapt (instructor_id instructor) = Ok k -> adapt (name instructor) = Ok n ->
     adapt (age instructor) = Ok a -> adapt (_email instructor) = Ok e ->
     is_null k = false ->
     (forall row, row ∈ instructors conn ->
                  sql_eq (Instructors.instructor_id row) k = false) ->
     DatabaseManager.add_instructor conn instructor
       = (Ok (), with_instructors conn (instructors conn ++ [Instructors.mk k n a e]))
     /\ DatabaseManager.get_instructor_by_id
          (snd (DatabaseManager.add_instructor conn instructor)) (instructor_id instructor)
        = Ok (Some (Instructors.mk k n a e))).
Proof.
  assert (Hself : forall k, is_null k = false -> sql_eq k k = true).
  { intros k Hk. apply sql_eq_spec. split; [reflexivity|].
    unfold is_null in Hk. destruct (sql_key k); congruence. }
  split.
  - intros student k n a e Hk Hn Ha He Hnull Hno.
    assert (Hadd : DatabaseManager.add_student conn student
              = (Ok (), with_students conn (students conn ++ [Students.mk k n a e]))).
    { unfold DatabaseManager.add_student, Sql.insert_students.
      rewrite Hk, Hn, Ha, He. cbn [mbind result_bind Students.student_id].
      now rewrite (existsb_matching_false Students.student_id _ k Hno). }
    rewrite Hadd. split; [reflexivity|].
    unfold DatabaseManager.get_student_by_id, Sql.select_students_where. rewrite Hk.
    cbn [mbind result_bind snd with_students students].
    now rewrite (select_where_snoc Students.student_id _ (Students.mk k n a e) k Hno (Hself k Hnull)).
  - intros instructor k n a e Hk Hn Ha He Hnull Hno.
    assert (Hadd : DatabaseManager.add_instructor conn instructor
              = (Ok (), with_instructors conn
                          (instructors conn ++ [Instructors.mk k n a e]))).
    { unfold DatabaseManager.add_instructor, Sql.insert_instructors.
      rewrite Hk, Hn, Ha, He. cbn [mbind result_bind Instructors.instructor_id].
      now rewrite (existsb_matching_false Instructors.instructor_id _ k Hno). }
    rewrite Hadd. split; [reflexivity|].
    unfold DatabaseManager.get_instructor_by_id, Sql.select_instructors_where. rewrite Hk.
    cbn [mbind result_bind snd with_instructors instructors].
    now rewrite (select_where_snoc Instructors.instructor_id _
                   (Instructors.mk k n a e) k Hno (Hself k Hnull)).
Qed.

Lemma add_then_get_witness :
  DatabaseManager.add_student empty_database ann
    = (Ok (), with_students empty_database [ann_row])
  /\ DatabaseManager.get_student_by_id
       (snd (DatabaseManager.add_student empty_database ann)) (VStr "S1")
     = Ok (Some ann_row).
Proof.
  destruct (add_then_get empty_database) as (Hstudents & _).
  apply (Hstudents ann (SText "S1") (SText "Ann") (SInt 20) (SText "ann@x.com")).
  - reflexivity.
  - reflexivity.
  - reflexivity.
  - reflexivity.
  - reflexivity.
  - intros row Hin. inversion Hin.
Defined.

(** X2: adding a course whose identifier is not NULL and matches no stored
    row succeeds when it has no instructor, the stored instructor_id then
    being NULL, and when its instructor's identifier is that of a stored
    instructor; the row goes to the end of courses and get_course_by_id
    returns it. *)
Theorem add_course_then_get (conn : Database) (course : Course) (k n i : sqlval) :
  adapt (course_id course) = Ok k -> adapt (course_name course) = Ok n ->
  adapt (DatabaseManager.instructor_id_of course) = Ok i ->
  is_null k = false ->
  (forall row, row ∈ courses conn -> sql_eq (Courses.course_id row) k = false) ->
  instructor course = None
  \/ (exists row, row ∈ instructors conn /\ sql_eq (Instructors.instructor_id row) i = true) ->
  DatabaseManager.add_course conn course
    = (Ok (), with_courses conn (courses conn ++ [Courses.mk k n i]))
  /\ DatabaseManager.get_course_by_id
       (snd (DatabaseManager.add_course conn course)) (course_id course)
     = Ok (Some (Courses.mk k n i))
  /\ (instructor course = None -> i = SNull).
Proof.
  intros Hk Hn Hi Hnull Hno Hins.
  assert (Hself : sql_eq k k = true).
  { apply sql_eq_spec. split; [reflexivity|].
    unfold is_null in Hnull. destruct (sql_key k); congruence. }
  assert (Hnone : instructor course = None -> i = SNull).
  { intros E. unfold DatabaseManager.instructor_id_of in Hi. rewrite E in Hi.
    simpl in Hi. congruence. }
  assert (Href : references_ok i (map Instructors.instructor_id (instructors conn)) = true).
  { apply references_ok_spec. destruct Hins as [E | Hrow]; [|now right].
    left. now rewrite (Hnone E). }
  assert (Hadd : DatabaseManager.add_course conn course
            = (Ok (), with_courses conn (courses conn ++ [Courses.mk k n i]))).
  { unfold DatabaseManager.add_course, Sql.insert_courses.
    rewrite Hk, Hn, Hi. cbn [mbind result_bind Courses.course_id Courses.instructor_id].
    rewrite (existsb_matching_false Courses.course_id _ k Hno), Href, orb_true_r.
    reflexivity. }
  rewrite Hadd. split; [reflexivity|]. split; [|exact Hnone].
  unfold DatabaseManager.get_course_by_id, Sql.select_courses_where. rewrite Hk.
  cbn [mbind result_bind snd with_courses courses].
  now rewrite (select_where_snoc Courses.course_id _ (Courses.mk k n i) k Hno Hself).
Qed.

Lemma add_course_then_get_witness :
  DatabaseManager.add_course empty_database algebra
    = (Ok (), with_courses empty_database [Courses.mk (SText "C1") (SText "Algebra") SNull])
  /\ DatabaseManager.get_course_by_id
       (snd (DatabaseManager.add_course empty_database algebra)) (VStr "C1")
     = Ok (Some (Courses.mk (SText "C1") (SText "Algebra") SNull))
  /\ (instructor algebra = None -> SNull = SNull).
Proof.
  apply (add_course_then_get empty_database algebra (SText "C1") (SText "Algebra") SNull).
  - reflexivity.
  - reflexivity.
  - reflexivity.
  - reflexivity.
  - intros row Hin. inversion Hin.
  - left. reflexivity.
Defined.

(** ** Deleting *)

(** X3: deleting a stored student that no registration refers to (or any
    stored student, on a connection that does not enforce the references)
    removes that row and no other, the order of the others being kept and
    the other tables untouched; get_student_by_id then returns None. *)
Theorem delete_student_removes (conn : Database) (l1 l2 : list Students.row)
    (row : Students.row) (student_id : value) (k : sqlval) :
  keys_hold conn = true ->
  students conn = l1 ++ row :: l2 ->
  adapt student_id = Ok k -> sql_eq (Students.student_id row) k = true ->
  foreign_keys conn = false
  \/ (forall reg, reg ∈ registrations conn ->
        sql_eq (Registrations.student_id reg) (Students.student_id row) = false) ->
  DatabaseManager.delete_student conn student_id
    = (Ok (), with_students conn (l1 ++ l2))
  /\ DatabaseManager.get_student_by_id
       (snd (DatabaseManager.delete_student conn student_id)) student_id = Ok None.
Proof.
  intros H Hl Hk Heq Hfree. apply keys_hold_spec in H as (Hs & _). rewrite Hl in Hs.
  assert (Hin : row ∈ l1 ++ row :: l2) by (apply elem_of_app; right; left).
  assert (Hdel : DatabaseManager.delete_student conn student_id
                 = (Ok (), with_students conn (l1 ++ l2))).
  { unfold DatabaseManager.delete_student, Sql.delete_from_students,
      Sql.select_students_where.
    rewrite Hk, Hl. cbn [mbind result_bind].
    rewrite (select_where_unique Students.student_id _ k row Hs Hin Heq).
    rewrite (delete_where_unique Students.student_id l1 l2 row k Hs Heq).
    replace (foreign_keys conn && _) with false; [reflexivity|].
    symmetry. destruct Hfree as [-> | Hfree]; [reflexivity|].
    apply andb_false_iff. right. simpl. rewrite orb_false_r.
    now apply existsb_matching_false. }
  rewrite Hdel. split; [reflexivity|].
  unfold DatabaseManager.get_student_by_id, Sql.select_students_where. rewrite Hk.
  cbn [mbind result_bind snd with_students students].
  rewrite (select_where_empty Students.student_id (l1 ++ l2) k); [reflexivity|].
  now apply (others_do_not_match Students.student_id l1 l2 row).
Qed.

Lemma delete_student_removes_witness :
  DatabaseManager.delete_student (run_all [AddStudent bob; AddStudent ann]) (VStr "S2")
    = (Ok (), with_students (run_all [AddStudent bob; AddStudent ann]) [ann_row])
  /\ DatabaseManager.get_student_by_id
       (snd (DatabaseManager.delete_student (run_all [AddStudent bob; AddStudent ann])
               (VStr "S2"))) (VStr "S2")
     = Ok None.
Proof.
  apply (delete_student_removes (run_all [AddStudent bob; AddStudent ann]) [] [ann_row]
           (Students.mk (SText "S2") (SText "Bob") (SInt 22) (SText "bob@x.com"))
           (VStr "S2") (SText "S2")).
  - vm_compute. reflexivity.
  - vm_compute. reflexivity.
  - reflexivity.
  - vm_compute. reflexivity.
  - right. intros reg Hin. vm_compute in Hin. inversion Hin.
Defined.

(** X4: delete on an identifier that matches no stored row raises nothing
    and leaves the store as it is, for students, instructors and courses. *)
Theorem delete_unknown_id_is_noop (conn : Database) (id : value) (k : sqlval) :
  adapt id = Ok k ->
  ((forall row, row ∈ students conn -> sql_eq (Students.student_id row) k = false) ->
   DatabaseManager.delete_student conn id = (Ok (), conn))
  /\ ((forall row, row ∈ instructors conn ->
                   sql_eq (Instructors.instructor_id row) k = false) ->
      DatabaseManager.delete_instructor conn id = (Ok (), conn))
  /\ ((forall row, row ∈ courses conn -> sql_eq (Courses.course_id row) k = false) ->
      DatabaseManager.delete_course conn id = (Ok (), conn)).
Proof.
  intros Hk. destruct conn as [fk ss ii cc rr]. simpl. split; [|split]; intros Hno.
  - unfold DatabaseManager.delete_student, Sql.delete_from_students,
      Sql.select_students_where, with_students.
    rewrite Hk. cbn [mbind result_bind students].
    rewrite (select_where_empty Students.student_id ss k Hno).
    rewrite (keep_where_none Students.student_id ss k Hno).
    simpl. now rewrite andb_false_r.
  - unfold DatabaseManager.delete_instructor, Sql.delete_from_instructors,
      Sql.select_instructors_where, with_instructors.
    rewrite Hk. cbn [mbind result_bind instructors].
    rewrite (select_where_empty Instructors.instructor_id ii k Hno).
    rewrite (keep_where_none Instructors.instructor_id ii k Hno).
    simpl. now rewrite andb_false_r.
  - unfold DatabaseManager.delete_course, Sql.delete_from_courses,
      Sql.select_courses_where, with_courses.
    rewrite Hk. cbn [mbind result_bind courses].
    rewrite (select_where_empty Courses.course_id cc k Hno).
    rewrite (keep_where_none Courses.course_id cc k Hno).
    simpl. now rewrite andb_false_r.
Qed.

Lemma delete_unknown_id_is_noop_witness :
  DatabaseManager.delete_course example_store (VStr "C9") = (Ok (), example_store).
Proof.
  apply (delete_unknown_id_is_noop example_store (VStr "C9") (SText "C9")).
  - reflexivity.
  - intros row Hin. apply list_elem_of_In in Hin. vm_compute in Hin.
    destruct Hin as [<- | [<- | []]]; vm_compute; reflexivity.
Defined.

(** X5: on a connection that enforces the references, deleting a course
    that a registration refers to, or an instructor that a course refers
    to, fails with the IntegrityError of the violated reference and leaves
    the store as it was. *)
Theorem delete_referenced_fails (conn : Database) (id : value) (k : sqlval) :
  foreign_keys conn = true ->
  adapt id = Ok k ->
  (forall (row : Courses.row) (reg : Registrations.row),
     row ∈ courses conn -> sql_eq (Courses.course_id row) k = true ->
     reg ∈ registrations conn ->
     sql_eq (Registrations.course_id reg) (Courses.course_id row) = true ->
     DatabaseManager.delete_course conn id = (Raise ReferentialIntegrityError, conn))
  /\ (forall (row : Instructors.row) (course : Courses.row),
     row ∈ instructors conn -> sql_eq (Instructors.instructor_id row) k = true ->
     course ∈ courses conn ->
     sql_eq (Courses.instructor_id course) (Instructors.instructor_id row) = true ->
     DatabaseManager.delete_instructor conn id = (Raise ReferentialIntegrityError, conn)).
Proof.
  intros Hfk Hk. split.
  - intros row reg Hin Heq Hreg Href.
    unfold DatabaseManager.delete_course, Sql.delete_from_courses.
    rewrite Hk, Hfk. cbn [mbind result_bind andb].
    replace (existsb _ (Sql.select_courses_where conn k)) with true; [reflexivity|].
    symmetry. apply existsb_exists. exists row. split.
    + apply list_elem_of_In. apply list_elem_of_filter. now split.
    + apply existsb_matching. now exists reg.
  - intros row course Hin Heq Hcourse Href.
    unfold DatabaseManager.delete_instructor, Sql.delete_from_instructors.
    rewrite Hk, Hfk. cbn [mbind result_bind andb].
    replace (existsb _ (Sql.select_instructors_where conn k)) with true; [reflexivity|].
    symmetry. apply existsb_exists. exists row. split.
    + apply list_elem_of_In. apply list_elem_of_filter. now split.
    + apply existsb_matching. now exists course.
Qed.

Lemma delete_referenced_fails_witness :
  DatabaseManager.delete_course example_store (VStr "C2")
    = (Raise ReferentialIntegrityError, example_store)
  /\ DatabaseManager.delete_instructor example_store (VStr "I1")
    = (Raise ReferentialIntegrityError, example_store).
Proof.
  split.
  - destruct (delete_referenced_fails example_store (VStr "C2") (SText "C2")
                eq_refl eq_refl) as (Hcourses & _).
    apply (Hcourses (Courses.mk (SText "C2") (SText "Logic") (SText "I1"))
             (Registrations.mk (SText "S2") (SText "C2"))).
    + apply list_elem_of_In. vm_compute. tauto.
    + vm_compute. reflexivity.
    + apply list_elem_of_In. vm_compute. tauto.
    + vm_compute. reflexivity.
  - destruct (delete_referenced_fails example_store (VStr "I1") (SText "I1")
                eq_refl eq_refl) as (_ & Hinstructors).
    apply (Hinstructors
             (Instructors.mk (SText "I1") (SText "Turing") (SInt 41) (SText "alan@x.org"))
             (Courses.mk (SText "C2") (SText "Logic") (SText "I1"))).
    + apply list_elem_of_In. vm_compute. tauto.
    + vm_compute. reflexivity.
    + apply list_elem_of_In. vm_compute. tauto.
    + vm_compute. reflexivity.
Defined.

(** ** Updating *)

(** X6: update_student on the identifier of a stored student overwrites the
    name, age and email of that row and of no other: the row keeps its
    place and its stored identifier, the other tables are untouched, and
    get_student_by_id returns the new row. *)
Theorem update_student_overwrites (conn : Database) (l1 l2 : list Students.row)
    (row : Students.row) (student : Student) (n a e k : sqlval) :
  keys_hold conn = true ->
  students conn = l1 ++ row :: l2 ->
  adapt (name student) = Ok n -> adapt (age student) = Ok a ->
  adapt (_email student) = Ok e -> adapt (student_id student) = Ok k ->
  sql_eq (Students.student_id row) k = true ->
  DatabaseManager.update_student conn student
    = (Ok (), with_students conn (l1 ++ Students.mk (Students.student_id row) n a e :: l2))
  /\ Sql.update_students conn n a e k
     = Ok (1%nat,
           with_students conn (l1 ++ Students.mk (Students.student_id row) n a e :: l2))
  /\ DatabaseManager.get_student_by_id
       (snd (DatabaseManager.update_student conn student)) (student_id student)
     = Ok (Some (Students.mk (Students.student_id row) n a e)).
Proof.
  intros H Hl Hn Ha He Hk Heq. apply keys_hold_spec in H as (Hs & _). rewrite Hl in Hs.
  assert (Hin : row ∈ l1 ++ row :: l2) by (apply elem_of_app; right; left).
  assert (Hstmt : Sql.update_students conn n a e k
            = Ok (1%nat, with_students conn
                           (l1 ++ Students.mk (Students.student_id row) n a e :: l2))).
  { unfold Sql.update_students, Sql.select_students_where. rewrite Hl.
    rewrite (select_where_unique Students.student_id _ k row Hs Hin Heq).
    now rewrite (update_where_unique Students.student_id _ l1 l2 row k Hs Heq). }
  assert (Hupd : DatabaseManager.update_student conn student
            = (Ok (), with_students conn
                        (l1 ++ Students.mk (Students.student_id row) n a e :: l2))).
  { unfold DatabaseManager.update_student. rewrite Hn, Ha, He, Hk.
    cbn [mbind result_bind]. now rewrite Hstmt. }
  rewrite Hupd. split; [reflexivity|]. split; [exact Hstmt|].
  unfold DatabaseManager.get_student_by_id, Sql.select_students_where. rewrite Hk.
  cbn [mbind result_bind snd with_students students].
  rewrite (select_where_unique Students.student_id _ k
             (Students.mk (Students.student_id row) n a e)); [reflexivity | | | exact Heq].
  - rewrite map_app in *. exact Hs.
  - apply elem_of_app. right. left.
Qed.

Lemma update_student_overwrites_witness :
  DatabaseManager.update_student (run_all [AddStudent bob; AddStudent ann])
    (mkStudent (mkPerson (VStr "Anna") (VInt 21) (VStr "anna@y.org")) (VStr "S1") [])
  = (Ok (),
     with_students (run_all [AddStudent bob; AddStudent ann])
       [Students.mk (SText "S2") (SText "Bob") (SInt 22) (SText "bob@x.com");
        Students.mk (SText "S1") (SText "Anna") (SInt 21) (SText "anna@y.org")]).
Proof.
  apply (update_student_overwrites (run_all [AddStudent bob; AddStudent ann])
           [Students.mk (SText "S2") (SText "Bob") (SInt 22) (SText "bob@x.com")] []
           ann_row
           (mkStudent (mkPerson (VStr "Anna") (VInt 21) (VStr "anna@y.org")) (VStr "S1") [])
           (SText "Anna") (SInt 21) (SText "anna@y.org") (SText "S1")).
  - vm_compute. reflexivity.
  - vm_compute. reflexivity.
  - reflexivity.
  - reflexivity.
  - reflexivity.
  - reflexivity.
  - vm_compute. reflexivity.
Defined.

(** ** Registering, then listing *)

Lemma joined_unfold (db : Database) :
  Sql.joined db = registrations db ≫= joined_for db.
Proof. reflexivity. Qed.

Lemma filter_key_sym {A} (column : A -> sqlval) (key : sqlval) (l : list A) :
  filter (fun r => sql_eq key (column r) = true) l
  = filter (fun r => Sql.matching column key r = true) l.
Proof.
  apply list_filter_iff. intros r. unfold Sql.matching. now rewrite sql_eq_sym.
Qed.

Lemma joined_for_parents (db : Database) (r : Registrations.row)
    (srow : Students.row) (crow : Courses.row) :
  keys_hold db = true ->
  srow ∈ students db -> crow ∈ courses db ->
  sql_eq (Students.student_id srow) (Registrations.student_id r) = true ->
  sql_eq (Courses.course_id crow) (Registrations.course_id r) = true ->
  joined_for db r
  = [Sql.mk_display (Students.student_id srow) (Students.name srow)
       (Courses.course_id crow) (Courses.course_name crow)].
Proof.
  intros H Hs Hc Es Ec. apply keys_hold_spec in H as (Ks & _ & Kc & _).
  unfold joined_for. rewrite !filter_key_sym.
  rewrite (select_where_unique Students.student_id _ _ srow Ks Hs Es).
  rewrite (select_where_unique Courses.course_id _ _ crow Kc Hc Ec).
  reflexivity.
Qed.

Lemma joined_for_length (db : Database) (r : Registrations.row) :
  keys_hold db = true -> (length (joined_for db r) <= 1)%nat.
Proof.
  intros H. apply keys_hold_spec in H as (Ks & _ & Kc & _).
  unfold joined_for. rewrite !filter_key_sym.
  pose proof (select_where_length Students.student_id (students db)
                (Registrations.student_id r) Ks) as Ls.
  pose proof (select_where_length Courses.course_id (courses db)
                (Registrations.course_id r) Kc) as Lc.
  destruct (filter _ (students db)) as [|s [|]]; simpl in *; try lia.
  destruct (filter _ (courses db)) as [|c [|]]; simpl in *; lia.
Qed.

(** X7: registering a stored student in a stored course, the pair not
    being registered yet, succeeds and adds the pair at the end of
    registrations; the display listing is then the listing of before with
    one row more, that of this student and this course. *)
Theorem register_then_display (conn : Database) (srow : Students.row)
    (crow : Courses.row) (student_id course_id : value) (s c : sqlval) :
  keys_hold conn = true ->
  srow ∈ students conn -> crow ∈ courses conn ->
  adapt student_id = Ok s -> adapt course_id = Ok c ->
  sql_eq (Students.student_id srow) s = true ->
  sql_eq (Courses.course_id crow) c = true ->
  (forall reg, reg ∈ registrations conn ->
               Sql.same_pair (Registrations.mk s c) reg = false) ->
  DatabaseManager.register_student_in_course conn student_id course_id
    = (Ok (), with_registrations conn (registrations conn ++ [Registrations.mk s c]))
  /\ DatabaseManager.get_registrations_for_display
       (snd (DatabaseManager.register_student_in_course conn student_id course_id))
     ≡ₚ Sql.mk_display (Students.student_id srow) (Students.name srow)
          (Courses.course_id crow) (Courses.course_name crow)
        :: DatabaseManager.get_registrations_for_display conn.
Proof.
  intros H Hs Hc Ks Kc Es Ec Hnew.
  assert (Hreg : DatabaseManager.register_student_in_course conn student_id course_id
            = (Ok (), with_registrations conn
                        (registrations conn ++ [Registrations.mk s c]))).
  { unfold DatabaseManager.register_student_in_course, Sql.insert_registrations.
    rewrite Ks, Kc. cbn [mbind result_bind Registrations.student_id Registrations.course_id].
    replace (existsb (Sql.same_pair (Registrations.mk s c)) (registrations conn))
      with false.
    2:{ symmetry. destruct (existsb _ (registrations conn)) eqn:E; [|reflexivity].
        apply existsb_exists in E as (reg & Hin & Hsame).
        apply list_elem_of_In in Hin. rewrite (Hnew reg Hin) in Hsame. discriminate. }
    replace (references_ok s _) with true
      by (symmetry; apply references_ok_spec; right; now exists srow).
    replace (references_ok c _) with true
      by (symmetry; apply references_ok_spec; right; now exists crow).
    now rewrite orb_true_r. }
  rewrite Hreg. split; [reflexivity|].
  unfold DatabaseManager.get_registrations_for_display, Sql.select_display.
  rewrite !merge_sort_Permutation, !joined_unfold.
  cbn [snd with_registrations registrations]. rewrite bind_app, bind_singleton.
  change (joined_for (with_registrations conn _)) with (joined_for conn).
  rewrite (joined_for_parents conn (Registrations.mk s c) srow crow H Hs Hc Es Ec).
  symmetry. apply Permutation_cons_append.
Qed.

Lemma register_then_display_witness :
  DatabaseManager.register_student_in_course example_store (VStr "S2") (VStr "C1")
    = (Ok (), with_registrations example_store
                (registrations example_store ++ [Registrations.mk (SText "S2") (SText "C1")]))
  /\ DatabaseManager.get_registrations_for_display
       (snd (DatabaseManager.register_student_in_course example_store
               (VStr "S2") (VStr "C1")))
     ≡ₚ Sql.mk_display (SText "S2") (SText "Bob") (SText "C1") (SText "Algebra")
        :: DatabaseManager.get_registrations_for_display example_store.
Proof.
  apply (register_then_display example_store
           (Students.mk (SText "S2") (SText "Bob") (SInt 22) (SText "bob@x.com"))
           (Courses.mk (SText "C1") (SText "Algebra") SNull)
           (VStr "S2") (VStr "C1") (SText "S2") (SText "C1")).
  - vm_compute. reflexivity.
  - apply list_elem_of_In. vm_compute. tauto.
  - apply list_elem_of_In. vm_compute. tauto.
  - reflexivity.
  - reflexivity.
  - vm_compute. reflexivity.
  - vm_compute. reflexivity.
  - intros reg Hin. apply list_elem_of_In in Hin. vm_compute in Hin.
    destruct Hin as [<- | [<- | [<- | []]]]; vm_compute; reflexivity.
Defined.

(** X8: the display listing never has more rows than registrations has,
    a registration giving at most one row; on a connection that enforces
    the references it has exactly as many when no registration holds a
    NULL identifier. *)
Theorem display_row_per_registration (conn : Database) :
  keys_hold conn = true ->
  (length (DatabaseManager.get_registrations_for_display conn)
   <= length (registrations conn))%nat
  /\ (foreign_keys conn = true -> constraints_hold conn = true ->
      (forall reg, reg ∈ registrations conn ->
         is_null (Registrations.student_id reg) = false
         /\ is_null (Registrations.course_id reg) = false) ->
      length (DatabaseManager.get_registrations_for_display conn)
      = length (registrations conn)).
Proof.
  intros H. unfold DatabaseManager.get_registrations_for_display, Sql.select_display.
  rewrite merge_sort_Permutation, joined_unfold. split.
  - induction (registrations conn) as [|r l IH]; [simpl; lia|].
    rewrite bind_cons, length_app. pose proof (joined_for_length conn r H). simpl. lia.
  - intros Hfk Hc Hnn. apply constraints_hold_spec in Hc as (_ & _ & _ & _ & Hrefs).
    destruct (Hrefs Hfk) as [_ Hr]. clear Hrefs.
    induction (registrations conn) as [|r l IH]; [reflexivity|].
    rewrite bind_cons, length_app.
    rewrite IH by (intros; try apply Hr; try apply Hnn; now right). clear IH.
    destruct (Hr r) as [Rs Rc]; [left|]. destruct (Hnn r) as [Ns Nc]; [left|].
    apply references_ok_spec in Rs as [Rs | (srow & Hs & Es)]; [congruence|].
    apply references_ok_spec in Rc as [Rc | (crow & Hcc & Ec)]; [congruence|].
    now rewrite (joined_for_parents conn r srow crow H Hs Hcc Es Ec).
Qed.

Lemma display_row_per_registration_witness :
  (length (DatabaseManager.get_registrations_for_display example_store)
   <= length (registrations example_store))%nat
  /\ length (DatabaseManager.get_registrations_for_display example_store)
     = length (registrations example_store).
Proof.
  destruct (display_row_per_registration example_store) as (Hle & Heq).
  - vm_compute. reflexivity.
  - split; [exact Hle|]. apply Heq.
    + reflexivity.
    + vm_compute. reflexivity.
    + intros reg Hin. apply list_elem_of_In in Hin. vm_compute in Hin.
      destruct Hin as [<- | [<- | [<- | []]]]; split; reflexivity.
Defined.

(** ** What every sequence of calls keeps *)

Lemma run_from_keeps (conn : Database) (calls : list call) :
  constraints_hold conn = true -> constraints_hold (run_from conn calls) = true.
Proof.
  unfold run_from. revert conn.
  induction calls as [|c calls IH]; intros conn H; simpl; [exact H|].
  apply IH. now apply run_keeps.
Qed.

Lemma run_from_foreign_keys (conn : Database) (calls : list call) :
  foreign_keys (run_from conn calls) = foreign_keys conn.
Proof.
  unfold run_from. revert conn.
  induction calls as [|c calls IH]; intros conn; simpl; [reflexivity|].
  now rewrite IH, run_foreign_keys.
Qed.

Lemma select_pair_length (l : list Registrations.row) (r : Registrations.row) :
  distinct_pairs l = true ->
  (length (filter (fun r' => Sql.same_pair r r' = true) l) <= 1)%nat.
Proof.
  intros Hd. destruct (filter _ l) as [|row rest] eqn:E; [simpl; lia|].
  assert (row ∈ filter (fun r' => Sql.same_pair r r' = true) l) as Hin
    by (rewrite E; left).
  apply list_elem_of_filter in Hin as [Heq Hin].
  rewrite (select_pair_unique l r row Hd Hin Heq) in E.
  injection E as <-. simpl. lia.
Qed.

(** X9: whatever calls are made on a store that satisfies the constraints
    of its schema, the store they leave satisfies them: an identifier
    selects at most one student, one instructor, one course, a pair at
    most one registration, and, where the references are enforced, every
    registration has its student and its course and every course its
    instructor, unless the identifier is NULL. *)
Theorem store_stays_consistent (conn : Database) (calls : list call) :
  constraints_hold conn = true ->
  (forall key,
     (length (Sql.select_students_where (run_from conn calls) key) <= 1)%nat
     /\ (length (Sql.select_instructors_where (run_from conn calls) key) <= 1)%nat
     /\ (length (Sql.select_courses_where (run_from conn calls) key) <= 1)%nat)
  /\ (forall r,
        (length (filter (fun r' => Sql.same_pair r r' = true)
                   (registrations (run_from conn calls))) <= 1)%nat)
  /\ (foreign_keys conn = true ->
      (forall reg, reg ∈ registrations (run_from conn calls) ->
         (is_null (Registrations.student_id reg) = false ->
          exists row, row ∈ students (run_from conn calls)
            /\ sql_eq (Students.student_id row) (Registrations.student_id reg) = true)
         /\ (is_null (Registrations.course_id reg) = false ->
             exists row, row ∈ courses (run_from conn calls)
               /\ sql_eq (Courses.course_id row) (Registrations.course_id reg) = true))
      /\ (forall course, course ∈ courses (run_from conn calls) ->
            is_null (Courses.instructor_id course) = false ->
            exists row, row ∈ instructors (run_from conn calls)
              /\ sql_eq (Instructors.instructor_id row) (Courses.instructor_id course)
                 = true)).
Proof.
  intros H. pose proof (run_from_keeps conn calls H) as H'.
  pose proof (run_from_foreign_keys conn calls) as Hfk'.
  apply constraints_hold_spec in H' as (Ks & Ki & Kc & Kp & Hrefs).
  split; [|split].
  - intros key. split; [|split].
    + now apply (select_where_length Students.student_id).
    + now apply (select_where_length Instructors.instructor_id).
    + now apply (select_where_length Courses.course_id).
  - intros r. now apply select_pair_length.
  - intros Hfk. rewrite Hfk' in Hrefs. destruct (Hrefs Hfk) as [Hci Hr]. split.
    + intros reg Hin. destruct (Hr reg Hin) as [Rs Rc].
      apply references_ok_spec in Rs, Rc. split; intros Hnn.
      * destruct Rs as [Rs | Rs]; [congruence | exact Rs].
      * destruct Rc as [Rc | Rc]; [congruence | exact Rc].
    + intros course Hin Hnn. specialize (Hci course Hin).
      apply references_ok_spec in Hci as [Hci | Hci]; [congruence | exact Hci].
Qed.

Lemma store_stays_consistent_witness :
  (length (Sql.select_students_where (run_from empty_database example_calls) (SText "S1"))
   <= 1)%nat.
Proof.
  destruct (store_stays_consistent empty_database example_calls) as (Hkeys & _).
  - reflexivity.
  - apply Hkeys.
Defined.

Lemma run_registrations (conn : Database) (c : call) :
  registrations (run conn c) = registrations conn
  \/ exists r, registrations (run conn c) = registrations conn ++ [r].
Proof.
  destruct c as [s | s | i | t | t | i | c | c | i | i j]; simpl;
    unfold DatabaseManager.add_student, DatabaseManager.update_student,
      DatabaseManager.delete_student, DatabaseManager.add_instructor,
      DatabaseManager.update_instructor, DatabaseManager.delete_instructor,
      DatabaseManager.add_course, DatabaseManager.update_course,
      DatabaseManager.delete_course, DatabaseManager.register_student_in_course;
    rewrite ?reraise_integrity_error_id;
    repeat match goal with
           | |- context [adapt ?v] => destruct (adapt v); simpl; [|now left]
           end;
    unfold Sql.insert_students, Sql.update_students, Sql.delete_from_students,
      Sql.insert_instructors, Sql.update_instructors, Sql.delete_from_instructors,
      Sql.insert_courses, Sql.update_courses, Sql.delete_from_courses,
      Sql.insert_registrations;
    repeat match goal with
           | |- context [if ?b then _ else _] => destruct b; simpl
           end;
    try (now left); right; eexists; reflexivity.
Qed.

(** X10: no call removes or alters a registration: after any sequence of
    calls the registrations of before are still there, in their order, at
    the head of the table. *)
Theorem registrations_only_grow (conn : Database) (calls : list call) :
  registrations conn `prefix_of` registrations (run_from conn calls).
Proof.
  unfold run_from. revert conn.
  induction calls as [|c calls IH]; intros conn; simpl; [reflexivity|].
  etransitivity; [|apply IH].
  destruct (run_registrations conn c) as [-> | (r & ->)]; [reflexivity|].
  now apply prefix_app_r.
Qed.

Lemma run_students (conn : Database) (c : call) :
  students (run conn c) = students conn
  \/ (exists r, students (run conn c) = students conn ++ [r])
  \/ (exists k n a e,
        students (run conn c)
        = map (fun r => if Sql.matching Students.student_id k r
                        then Students.mk (Students.student_id r) n a e else r)
            (students conn))
  \/ (exists k,
        students (run conn c)
        = filter (fun r => Sql.matching Students.student_id k r = false) (students conn)
        /\ (foreign_keys conn = true ->
            existsb (fun d => existsb (Sql.matching Registrations.student_id
                                         (Students.student_id d)) (registrations conn))
              (Sql.select_students_where conn k) = false)).
Proof.
  destruct c as [s | s | i | t | t | i | c | c | i | i j]; simpl;
    unfold DatabaseManager.add_student, DatabaseManager.update_student,
      DatabaseManager.delete_student, DatabaseManager.add_instructor,
      DatabaseManager.update_instructor, DatabaseManager.delete_instructor,
      DatabaseManager.add_course, DatabaseManager.update_course,
      DatabaseManager.delete_course, DatabaseManager.register_student_in_course;
    rewrite ?reraise_integrity_error_id;
    repeat match goal with
           | |- context [adapt ?v] => destruct (adapt v); simpl; [|now left]
           end;
    unfold Sql.insert_students, Sql.update_students, Sql.delete_from_students,
      Sql.insert_instructors, Sql.update_instructors, Sql.delete_from_instructors,
      Sql.insert_courses, Sql.update_courses, Sql.delete_from_courses,
      Sql.insert_registrations.
  - destruct (existsb _ (students conn)); simpl; [now left|].
    right. left. eexists. reflexivity.
  - simpl. right. right. left. do 4 eexists. reflexivity.
  - destruct (foreign_keys conn && _) eqn:E; simpl; [now left|].
    right. right. right. eexists. split; [reflexivity|].
    intros Hfk. rewrite Hfk in E. exact E.
  - destruct (existsb _ (instructors conn)); simpl; now left.
  - simpl. now left.
  - destruct (foreign_keys conn && _); simpl; now left.
  - destruct (existsb _ (courses conn)); simpl; [now left|].
    destruct (negb (foreign_keys conn) || _); simpl; now left.
  - destruct (foreign_keys conn && _ && _); simpl; now left.
  - destruct (foreign_keys conn && _); simpl; now left.
  - destruct (existsb _ (registrations conn)); simpl; [now left|].
    destruct (negb (foreign_keys conn) || _); simpl; now left.
Qed.

Lemma run_keeps_registered (conn : Database) (c : call) (row : Students.row)
    (reg : Registrations.row) :
  foreign_keys conn = true ->
  row ∈ students conn -> reg ∈ registrations conn ->
  sql_eq (Registrations.student_id reg) (Students.student_id row) = true ->
  exists row', row' ∈ students (run conn c)
    /\ Students.student_id row' = Students.student_id row
    /\ reg ∈ registrations (run conn c).
Proof.
  intros Hfk Hin Hreg Href.
  assert (Hreg' : reg ∈ registrations (run conn c)).
  { destruct (run_registrations conn c) as [-> | (r & ->)]; [exact Hreg|].
    apply elem_of_app. now left. }
  destruct (run_students conn c) as [E | [(r & E) | [(k & n & a & e & E) | (k & E & Hfree)]]];
    rewrite E.
  - now exists row.
  - exists row. split; [|auto]. apply elem_of_app. now left.
  - exists (if Sql.matching Students.student_id k row
            then Students.mk (Students.student_id row) n a e else row).
    split; [|split; [|exact Hreg']].
    + apply list_elem_of_fmap. now exists row.
    + now destruct (Sql.matching Students.student_id k row).
  - exists row. split; [|auto]. apply list_elem_of_filter. split; [|exact Hin].
    destruct (Sql.matching Students.student_id k row) eqn:Em; [|reflexivity].
    exfalso. specialize (Hfree Hfk). rewrite <- not_true_iff_false in Hfree.
    apply Hfree. apply existsb_exists. exists row. split.
    + apply list_elem_of_In. apply list_elem_of_filter. now split.
    + apply existsb_matching. now exists reg.
Qed.

(** X11: on a connection that enforces the references, a student who has
    a registration can no longer be removed: after any sequence of calls a
    row with the student's identifier is still in students (its name, age
    and email possibly updated) and the registration is still there. *)
Theorem registered_student_stays (conn : Database) (calls : list call)
    (row : Students.row) (reg : Registrations.row) :
  foreign_keys conn = true ->
  row ∈ students conn -> reg ∈ registrations conn ->
  sql_eq (Registrations.student_id reg) (Students.student_id row) = true ->
  exists row', row' ∈ students (run_from conn calls)
    /\ Students.student_id row' = Students.student_id row
    /\ reg ∈ registrations (run_from conn calls).
Proof.
  unfold run_from. revert conn row.
  induction calls as [|c calls IH]; intros conn row Hfk Hin Hreg Href; simpl.
  - now exists row.
  - destruct (run_keeps_registered conn c row reg Hfk Hin Hreg Href)
      as (row1 & Hin1 & Hid1 & Hreg1).
    destruct (IH (run conn c) row1) as (row' & Hin' & Hid' & Hreg').
    + now rewrite run_foreign_keys.
    + exact Hin1.
    + exact Hreg1.
    + now rewrite Hid1.
    + exists row'. split; [exact Hin'|]. split; [congruence | exact Hreg'].
Qed.

Lemma registered_student_stays_witness :
  exists row', row' ∈ students (run_from example_store
                                  [DeleteStudent (VStr "S1"); UpdateStudent
                                     (mkStudent (mkPerson (VStr "Anna") (VInt 21)
                                        (VStr "anna@y.org")) (VStr "S1") []);
                                   DeleteStudent (VStr "S1")])
    /\ Students.student_id row' = Students.student_id ann_row
    /\ Registrations.mk (SText "S1") (SText "C1")
         ∈ registrations (run_from example_store
                            [DeleteStudent (VStr "S1"); UpdateStudent
                               (mkStudent (mkPerson (VStr "Anna") (VInt 21)
                                  (VStr "anna@y.org")) (VStr "S1") []);
                             DeleteStudent (VStr "S1")]).
Proof.
  apply (registered_student_stays example_store).
  - reflexivity.
  - apply list_elem_of_In. vm_compute. tauto.
  - apply list_elem_of_In. vm_compute. tauto.
  - vm_compute. reflexivity.
Defined.

(** * Further properties of the domain model *)

(** ** Courses: export and reconstruction *)

Lemma py_eq_none (v : value) : py_eq v VNone = Some false \/ v = VNone.
Proof. destruct v; simpl; auto. Qed.

Lemma course_to_dict_items (c : Course) :
  getitem (Course.to_dict c) "course_id" = Ok (course_id c)
  /\ getitem (Course.to_dict c) "course_name" = Ok (course_name c)
  /\ getitem (Course.to_dict c) "instructor_id"
     = Ok (match instructor c with Some i => instructor_id i | None => VNone end).
Proof. repeat split. Qed.

Lemma find_instructor_first (data : gmap string value) (key : value)
    (l1 l2 : list Instructor) (found : Instructor) :
  getitem data "instructor_id" = Ok key ->
  (forall inst, inst ∈ l1 -> py_eq (instructor_id inst) key = Some false) ->
  py_eq (instructor_id found) key = Some true ->
  Course.find_instructor data (l1 ++ found :: l2) = Some (Ok (Some found)).
Proof.
  intros Hkey Hno Hyes. induction l1 as [|x l1 IH]; simpl; rewrite Hkey.
  - now rewrite Hyes.
  - rewrite (Hno x) by left. apply IH. intros inst Hin. apply Hno. now right.
Qed.

Lemma find_instructor_none (data : gmap string value) (key : value)
    (l : list Instructor) :
  getitem data "instructor_id" = Ok key ->
  (forall inst, inst ∈ l -> py_eq (instructor_id inst) key = Some false) ->
  Course.find_instructor data l = Some (Ok None).
Proof.
  intros Hkey Hno. induction l as [|x l IH]; simpl; [reflexivity|]. rewrite Hkey.
  rewrite (Hno x) by left. apply IH. intros inst Hin. apply Hno. now right.
Qed.

(** X12: a course exported by to_dict and rebuilt by from_dict has its
    course_id and course_name back.  Its instructor is the first of the
    given instructors whose identifier equals the exported one, hence the
    course's own when that one comes first among those; a course without
    instructor comes back without one as long as no given instructor has
    None for identifier.  The enrolled students are not restored. *)
Theorem course_export_roundtrip (c : Course) (instructors : list Instructor) :
  (instructor c = None ->
   (forall inst, inst ∈ instructors -> instructor_id inst <> VNone) ->
   Course.from_dict (Course.to_dict c) instructors
   = Some (Ok (mkCourse (course_id c) (course_name c) None [])))
  /\ (forall (i found : Instructor) (l1 l2 : list Instructor),
        instructor c = Some i ->
        instructors = l1 ++ found :: l2 ->
        (forall inst, inst ∈ l1 ->
           py_eq (instructor_id inst) (instructor_id i) = Some false) ->
        py_eq (instructor_id found) (instructor_id i) = Some true ->
        Course.from_dict (Course.to_dict c) instructors
        = Some (Ok (mkCourse (course_id c) (course_name c) (Some found) []))).
Proof.
  destruct (course_to_dict_items c) as (Hid & Hname & Hins). split.
  - intros Hnone Hno. unfold Course.from_dict. rewrite Hnone in Hins.
    rewrite (find_instructor_none _ VNone instructors Hins).
    + cbn [mbind result_bind]. rewrite Hid, Hname. reflexivity.
    + intros inst Hin. destruct (py_eq_none (instructor_id inst)) as [E | E]; [exact E|].
      destruct (Hno inst Hin E).
  - intros i found l1 l2 Hsome -> Hno Hyes. unfold Course.from_dict.
    rewrite Hsome in Hins.
    rewrite (find_instructor_first _ (instructor_id i) l1 l2 found Hins Hno Hyes).
    cbn [mbind result_bind]. rewrite Hid, Hname. reflexivity.
Qed.

Lemma course_export_roundtrip_witness :
  Course.from_dict (Course.to_dict algebra) [turing]
    = Some (Ok (mkCourse (VStr "C1") (VStr "Algebra") None []))
  /\ Course.from_dict
       (Course.to_dict (mkCourse (VStr "C2") (VStr "Logic") (Some turing) [ann; bob]))
       [mkInstructor (mkPerson (VStr "Church") (VInt 33) (VStr "al@x.org")) (VStr "I0") [];
        turing]
     = Some (Ok (mkCourse (VStr "C2") (VStr "Logic") (Some turing) [])).
Proof.
  split.
  - apply (course_export_roundtrip algebra [turing]); [reflexivity|].
    intros inst Hin. apply list_elem_of_singleton in Hin as ->. discriminate.
  - apply (course_export_roundtrip
             (mkCourse (VStr "C2") (VStr "Logic") (Some turing) [ann; bob])
             [mkInstructor (mkPerson (VStr "Church") (VInt 33) (VStr "al@x.org"))
                (VStr "I0") []; turing]) with
      (i := turing)
      (l1 := [mkInstructor (mkPerson (VStr "Church") (VInt 33) (VStr "al@x.org"))
                (VStr "I0") []])
      (l2 := []).
    + reflexivity.
    + reflexivity.
    + intros inst Hin. apply list_elem_of_singleton in Hin as ->. reflexivity.
    + reflexivity.
Defined.

(** X13: Course.from_dict does not raise for an instructor it cannot
    find: when no given instructor has the identifier of the dictionary
    the course is built without instructor.  The entry instructor_id is
    read once per instructor tried: with no instructor given it is not
    read at all and may be missing, with one it must be there, and its
    absence is the KeyError raised, before course_id is looked at. *)
Theorem course_from_dict_lookup (data : gmap string value) :
  Course.from_dict data []
  = Some (i ← getitem data "course_id"; n ← getitem data "course_name";
          Ok (mkCourse i n None []))
  /\ (forall inst rest, data !! "instructor_id" = None ->
        Course.from_dict data (inst :: rest) = Some (Raise (KeyError "instructor_id")))
  /\ (forall key instructors,
        data !! "instructor_id" = Some key ->
        (forall inst, inst ∈ instructors -> py_eq (instructor_id inst) key = Some false) ->
        Course.from_dict data instructors
        = Some (i ← getitem data "course_id"; n ← getitem data "course_name";
                Ok (mkCourse i n None []))).
Proof.
  split; [reflexivity|]. split.
  - intros inst rest Hmiss. unfold Course.from_dict. simpl.
    unfold getitem at 1. rewrite Hmiss. reflexivity.
  - intros key instructors Hkey Hno. unfold Course.from_dict.
    rewrite (find_instructor_none data key instructors); [reflexivity | | exact Hno].
    unfold getitem. now rewrite Hkey.
Qed.

Lemma course_from_dict_lookup_witness :
  Course.from_dict (<["course_id" := VStr "C1"]> (<["course_name" := VStr "Algebra"]> ∅))
    [turing]
  = Some (Raise (KeyError "instructor_id"))
  /\ Course.from_dict
       (<["instructor_id" := VStr "I7"]>
          (<["course_id" := VStr "C1"]> (<["course_name" := VStr "Algebra"]> ∅)))
       [turing]
     = Some (Ok (mkCourse (VStr "C1") (VStr "Algebra") None [])).
Proof.
  split.
  - apply (course_from_dict_lookup
             (<["course_id" := VStr "C1"]> (<["course_name" := VStr "Algebra"]> ∅))).
    reflexivity.
  - destruct (course_from_dict_lookup
                (<["instructor_id" := VStr "I7"]>
                   (<["course_id" := VStr "C1"]> (<["course_name" := VStr "Algebra"]> ∅))))
      as (_ & _ & Hnone).
    rewrite (Hnone (VStr "I7") [turing]).
    + reflexivity.
    + reflexivity.
    + intros inst Hin. apply list_elem_of_singleton in Hin as ->. reflexivity.
Defined.

(** ** Students and instructors: dictionaries with a key missing *)

Lemma getitem_missing (data : gmap string value) (key : string) :
  data !! key = None -> getitem data key = Raise (KeyError key).
Proof. intros H. unfold getitem. now rewrite H. Qed.

Lemma getitem_present (data : gmap string value) (key : string) (v : value) :
  data !! key = Some v -> getitem data key = Ok v.
Proof. intros H. unfold getitem. now rewrite H. Qed.

(** X14: from_dict reads name, age, email and the identifier in this order
    and raises KeyError for the first that is missing, before any
    validation: the entries that are there may well be invalid.  The
    identifier of a student is read under student_id and that of an
    instructor under instructor_id, so the export of a student is never
    accepted as an instructor, nor that of an instructor as a student. *)
Theorem from_dict_missing_key (data : gmap string value) :
  (data !! "name" = None ->
   Student.from_dict data = Raise (KeyError "name")
   /\ Instructor.from_dict data = Raise (KeyError "name"))
  /\ (forall n, data !! "name" = Some n -> data !! "age" = None ->
      Student.from_dict data = Raise (KeyError "age")
      /\ Instructor.from_dict data = Raise (KeyError "age"))
  /\ (forall n a, data !! "name" = Some n -> data !! "age" = Some a ->
      data !! "email" = None ->
      Student.from_dict data = Raise (KeyError "email")
      /\ Instructor.from_dict data = Raise (KeyError "email"))
  /\ (forall n a e, data !! "name" = Some n -> data !! "age" = Some a ->
      data !! "email" = Some e ->
      (data !! "student_id" = None ->
       Student.from_dict data = Raise (KeyError "student_id"))
      /\ (data !! "instructor_id" = None ->
          Instructor.from_dict data = Raise (KeyError "instructor_id")))
  /\ (forall s : Student,
        Instructor.from_dict (Student.to_dict s) = Raise (KeyError "instructor_id"))
  /\ (forall t : Instructor,
        Student.from_dict (Instructor.to_dict t) = Raise (KeyError "student_id")).
Proof.
  unfold Student.from_dict, Instructor.from_dict. split_and!.
  - intros H. now rewrite (getitem_missing data "name" H).
  - intros n Hn H.
    now rewrite (getitem_present data "name" n Hn), (getitem_missing data "age" H).
  - intros n a Hn Ha H.
    now rewrite (getitem_present data "name" n Hn), (getitem_present data "age" a Ha),
      (getitem_missing data "email" H).
  - intros n a e Hn Ha He.
    rewrite (getitem_present data "name" n Hn), (getitem_present data "age" a Ha),
      (getitem_present data "email" e He).
    split; intros H; now rewrite (getitem_missing data _ H).
  - intros s. reflexivity.
  - intros t. reflexivity.
Qed.

Lemma from_dict_missing_key_witness :
  Student.from_dict (<["name" := VStr "Ann"]> (<["age" := VInt (-4)]> ∅))
  = Raise (KeyError "email").
Proof.
  destruct (from_dict_missing_key (<["name" := VStr "Ann"]> (<["age" := VInt (-4)]> ∅)))
    as (_ & _ & Hemail & _).
  apply (Hemail (VStr "Ann") (VInt (-4))); reflexivity.
Defined.

(** ** An email that is not a string *)

(** X15: the email test is a membership test, so what it does with an
    email that is not a string depends on the kind of object: None, a
    bool, an int or a float raise TypeError, not the ValidationError; a
    list is accepted exactly when the strings "@" and "." are among its
    items, and otherwise rejected with the email message.  This is for an
    age that passes its check. *)
Theorem email_not_a_string (n a : value) (z : Z) :
  int_value a = Some z -> 0 <= z ->
  (forall email,
     match email with VStr _ | VList _ => False | _ => True end ->
     Person.__init__ n a email = Raise TypeError)
  /\ (forall l : list value,
        (VStr "@" ∈ l /\ VStr "." ∈ l ->
         Person.__init__ n a (VList l) = Ok (mkPerson n a (VList l)))
        /\ (~ (VStr "@" ∈ l /\ VStr "." ∈ l) ->
            Person.__init__ n a (VList l) = Raise (ValidationError email_message))).
Proof.
  intros Hz Hpos.
  assert (Hmem : forall s l, existsb (str_eq s) l = true <-> VStr s ∈ l).
  { intros s l. rewrite existsb_exists. split.
    - intros (v & Hin & Heq). destruct v; simpl in Heq; try discriminate.
      apply String.eqb_eq in Heq as ->. now apply list_elem_of_In.
    - intros Hin. exists (VStr s). split; [now apply list_elem_of_In|].
      simpl. apply String.eqb_refl. }
  split.
  - intros email Hkind. rewrite (good_age_passes n a email z Hz Hpos).
    destruct email; simpl; try reflexivity; destruct Hkind.
  - intros l. rewrite (good_age_passes n a (VList l) z Hz Hpos). simpl.
    pose proof (Hmem "@" l) as Hat. pose proof (Hmem "." l) as Hdot.
    destruct (existsb (str_eq "@") l), (existsb (str_eq ".") l); simpl; split;
      try reflexivity; intuition discriminate.
Qed.

Lemma email_not_a_string_witness :
  Person.__init__ (VStr "Ann") (VInt 20) VNone = Raise TypeError
  /\ Person.__init__ (VStr "Ann") (VInt 20) (VList [VStr "."; VStr "@"])
     = Ok (mkPerson (VStr "Ann") (VInt 20) (VList [VStr "."; VStr "@"])).
Proof.
  destruct (email_not_a_string (VStr "Ann") (VInt 20) 20) as (Hother & Hlist).
  - reflexivity.
  - lia.
  - split.
    + apply Hother. exact I.
    + apply Hlist. split; [right; left | left].
Defined.

(** * Properties of the Tk forms *)

(** ** Splitting and stripping *)

Lemma has_char_cons (c a : ascii) (s : string) :
  has_char c (String a s) <-> a = c \/ has_char c s.
Proof. reflexivity. Qed.

Lemma has_char_append (c : ascii) (s t : string) :
  has_char c (s ++ t)%string <-> has_char c s \/ has_char c t.
Proof.
  unfold has_char. induction s as [|a s IH]; simpl; [tauto|]. rewrite IH. tauto.
Qed.

Lemma append_cons (a : ascii) (s t : string) :
  (String a s ++ t)%string = String a (s ++ t)%string.
Proof. reflexivity. Qed.

Lemma append_nil (t : string) : (EmptyString ++ t)%string = t.
Proof. reflexivity. Qed.

Lemma append_assoc (s t u : string) : ((s ++ t) ++ u = s ++ (t ++ u))%string.
Proof.
  induction s as [|a s IH]; [reflexivity|]. rewrite !append_cons. now rewrite IH.
Qed.

Lemma split_not_nil (c : ascii) (s : string) : Str.split c s <> [].
Proof.
  destruct s as [|a s]; simpl; [discriminate|].
  destruct (Ascii.eqb a c); [discriminate|]. destruct (Str.split c s); discriminate.
Qed.

Lemma split_no_separator (c : ascii) (s : string) :
  ~ has_char c s -> Str.split c s = [s].
Proof.
  induction s as [|a s IH]; intros Hno; simpl; [reflexivity|].
  rewrite has_char_cons in Hno.
  destruct (Ascii.eqb_spec a c) as [-> | Hne]; [tauto|].
  rewrite IH by tauto. reflexivity.
Qed.

Lemma split_after_separator (c : ascii) (p q : string) :
  exists f front, Str.split c (p ++ String c q)%string = (f :: front) ++ Str.split c q.
Proof.
  induction p as [|a p (f & front & IH)]; simpl.
  - rewrite Ascii.eqb_refl. now exists EmptyString, [].
  - rewrite IH. destruct (Ascii.eqb a c).
    + now exists EmptyString, (f :: front).
    + now exists (String a f), front.
Qed.

Lemma last_app_not_nil {A} (l1 l2 : list A) (d : A) :
  l2 <> [] -> List.last (l1 ++ l2) d = List.last l2 d.
Proof.
  intros Hne. induction l1 as [|x l1 IH]; [reflexivity|].
  simpl. destruct (l1 ++ l2) eqn:E; [|exact IH].
  apply app_eq_nil in E as [_ E]. contradiction.
Qed.

Lemma last_in_list {A} (l : list A) (d : A) : l <> [] -> In (List.last l d) l.
Proof.
  induction l as [|x l IH]; intros Hne; [contradiction|].
  destruct l as [|y l]; [now left|]. right. apply IH. discriminate.
Qed.

Lemma split_pieces (c : ascii) (s piece : string) :
  In piece (Str.split c s) -> ~ has_char c piece.
Proof.
  revert piece. induction s as [|a s IH]; intros piece Hin; simpl in Hin.
  - destruct Hin as [<- | []]. intros [].
  - destruct (Ascii.eqb_spec a c) as [-> | Hne].
    + destruct Hin as [<- | Hin]; [intros [] | now apply IH].
    + destruct (Str.split c s) as [|f front]; simpl in Hin.
      * destruct Hin as [<- | []]. rewrite has_char_cons. intros [E | []]. contradiction.
      * destruct Hin as [<- | Hin]; [|apply IH; now right].
        rewrite has_char_cons. intros [E | E]; [contradiction|].
        apply (IH f); [now left | exact E].
Qed.

Lemma lstrip_keeps (c x : ascii) (s : string) :
  has_char x (Str.lstrip c s) -> has_char x s.
Proof.
  induction s as [|a s IH]; simpl; [tauto|].
  destruct (Ascii.eqb a c); [|tauto]. intros H. rewrite has_char_cons. right. now apply IH.
Qed.

Lemma rstrip_keeps (c x : ascii) (s : string) :
  has_char x (Str.rstrip c s) -> has_char x s.
Proof.
  induction s as [|a s IH]; simpl; [tauto|].
  destruct (Str.rstrip c s) as [|b r].
  - destruct (Ascii.eqb a c); [intros [] |]. rewrite !has_char_cons. intros [E | []].
    now left.
  - rewrite !has_char_cons. intros [E | E]; [now left | right; now apply IH].
Qed.

Lemma lstrip_head (c a : ascii) (s t : string) :
  Str.lstrip c s = String a t -> a <> c.
Proof.
  induction s as [|b s IH]; simpl; [discriminate|].
  destruct (Ascii.eqb_spec b c) as [-> | Hne]; [exact IH|].
  intros [= <- <-]. exact Hne.
Qed.

Lemma rstrip_head (c a : ascii) (s t : string) :
  Str.rstrip c s = String a t -> exists t', s = String a t'.
Proof.
  destruct s as [|b s]; simpl; [discriminate|].
  destruct (Str.rstrip c s).
  - destruct (Ascii.eqb b c); [discriminate|]. intros [= <- <-]. now exists s.
  - intros [= <- <-]. now exists s.
Qed.

Lemma rstrip_no_tail (c : ascii) (s t : string) :
  Str.rstrip c s <> (t ++ String c EmptyString)%string.
Proof.
  revert t. induction s as [|a s IH]; intros t; simpl.
  - destruct t; discriminate.
  - destruct (Str.rstrip c s) as [|b r] eqn:E.
    + destruct (Ascii.eqb_spec a c) as [-> | Hne]; [destruct t; discriminate|].
      destruct t as [|x t]; [rewrite append_nil; congruence|].
      rewrite append_cons. intros [= _ H]. destruct t; discriminate.
    + destruct t as [|x t]; [rewrite append_nil; discriminate|].
      rewrite append_cons. intros [= _ H]. apply (IH t). exact H.
Qed.

Lemma rstrip_append (c : ascii) (s : string) :
  Str.rstrip c (s ++ String c EmptyString)%string = Str.rstrip c s.
Proof.
  induction s as [|a s IH].
  - rewrite append_nil. simpl. now rewrite Ascii.eqb_refl.
  - rewrite append_cons. simpl. now rewrite IH.
Qed.

Lemma rstrip_fixed (c : ascii) (s : string) :
  (forall t, s <> (t ++ String c EmptyString)%string) -> Str.rstrip c s = s.
Proof.
  induction s as [|a s IH]; intros Hno; simpl; [reflexivity|].
  rewrite IH.
  - destruct s; [|reflexivity].
    destruct (Ascii.eqb_spec a c) as [-> | Hne]; [|reflexivity].
    destruct (Hno EmptyString). reflexivity.
  - intros t ->. apply (Hno (String a t)). reflexivity.
Qed.

Lemma lstrip_fixed (c : ascii) (s : string) :
  (forall t, s <> String c t) -> Str.lstrip c s = s.
Proof.
  destruct s as [|a s]; intros Hno; simpl; [reflexivity|].
  destruct (Ascii.eqb_spec a c) as [-> | Hne]; [|reflexivity].
  destruct (Hno s). reflexivity.
Qed.

(** ** The dropdown labels *)


Lemma label_split (name id : string) :
  Tk.label name id = ((name ++ " ") ++ String "(" (id ++ ")"))%string.
Proof. unfold Tk.label. now rewrite append_assoc. Qed.

Lemma selected_id_plain (sel : string) : plain_id (Tk.selected_id sel).
Proof.
  unfold plain_id, Tk.selected_id, Str.strip. split_and!.
  - intros H. apply rstrip_keeps, lstrip_keeps in H.
    apply (split_pieces "(" sel) in H; [exact H|]. apply last_in_list, split_not_nil.
  - intros t E. destruct (rstrip_head _ _ _ _ E) as (t' & E').
    now apply lstrip_head in E'.
  - intros t. apply rstrip_no_tail.
Qed.

Lemma strip_closing (id : string) :
  (forall t, id <> String ")" t) ->
  (forall t, id <> (t ++ String ")" EmptyString)%string) ->
  Str.strip ")" (id ++ ")") = id.
Proof.
  intros Hhead Htail. unfold Str.strip. destruct id as [|a s]; [reflexivity|].
  rewrite lstrip_fixed.
  - rewrite rstrip_append. now apply rstrip_fixed.
  - intros t. rewrite append_cons. intros [= -> _]. now apply (Hhead s).
Qed.

Lemma selected_id_label (name id : string) :
  plain_id id -> Tk.selected_id (Tk.label name id) = id.
Proof.
  intros (Hno & Hhead & Htail). unfold Tk.selected_id. rewrite label_split.
  destruct (split_after_separator "(" (name ++ " ") (id ++ ")")) as (f & front & ->).
  rewrite split_no_separator.
  - rewrite last_app_not_nil by discriminate. simpl. now apply strip_closing.
  - rewrite has_char_append. intros [H | H]; [now apply Hno|].
    destruct H as [H | []]. discriminate.
Qed.

(** X16: the identifier that the registration form reads back from a
    dropdown entry "name (id)" is the identifier of the entry exactly when
    that identifier has no opening parenthesis and neither begins nor ends
    with a closing one. *)
Theorem label_roundtrip (name id : string) :
  Tk.selected_id (Tk.label name id) = id <-> plain_id id.
Proof.
  split.
  - intros E. rewrite <- E. apply selected_id_plain.
  - apply selected_id_label.
Qed.

(** ** Registering from the form *)



(** X18: with the references enforced, when the identifier read back from
    the chosen student entry matches no stored student, the form stores
    nothing and warns that the student is already registered for the
    course, whether or not such a registration exists. *)
Theorem form_blames_duplicate (conn : Database) (student_sel course_sel : string) :
  foreign_keys conn = true ->
  student_sel <> "" -> course_sel <> "" ->
  (forall row, row ∈ students conn ->
     sql_eq (Students.student_id row) (SText (Tk.selected_id student_sel)) = false) ->
  Tk.register_student_for_course conn student_sel course_sel
  = (Tk.showwarning "Registration Error"
       "This student is already registered for this course.", conn).
Proof.
  intros Hfk Hs Hc Hno. unfold Tk.register_student_for_course.
  apply String.eqb_neq in Hs, Hc. rewrite Hs, Hc. cbn [orb].
  unfold DatabaseManager.register_student_in_course, Sql.insert_registrations.
  cbn [adapt mbind result_bind Registrations.student_id Registrations.course_id].
  assert (Href : references_ok (SText (Tk.selected_id student_sel))
                   (map Students.student_id (students conn)) = false).
  { destruct (references_ok _ _) eqn:E; [|reflexivity].
    apply references_ok_spec in E as [E | (row & Hin & E)]; [discriminate|].
    rewrite (Hno row Hin) in E. discriminate. }
  rewrite Hfk, Href. cbn [negb orb andb].
  destruct (existsb _ (registrations conn)); reflexivity.
Qed.


Lemma form_blames_duplicate_witness :
  Tk.register_student_for_course
    (run_all [AddStudent (mkStudent (mkPerson (VStr "Ann") (VInt 20) (VStr "ann@x.com"))
                            (VStr "A(1)") []);
              AddCourse algebra])
    (Tk.label "Ann" "A(1)") (Tk.label "Algebra" "C1")
  = (Tk.showwarning "Registration Error"
       "This student is already registered for this course.",
     run_all [AddStudent (mkStudent (mkPerson (VStr "Ann") (VInt 20) (VStr "ann@x.com"))
                            (VStr "A(1)") []);
              AddCourse algebra]).
Proof.
  apply form_blames_duplicate.
  - vm_compute. reflexivity.
  - vm_compute. discriminate.
  - vm_compute. discriminate.
  - intros row Hin. apply list_elem_of_In in Hin. vm_compute in Hin.
    destruct Hin as [<- | []]. vm_compute. reflexivity.
Defined.

(** ** Renaming a course *)


